(** * ENTSO-e price sensors: a shallow embedding of [custom_components/entsoe/sensor.py]

    The development follows the source file top to bottom:

    - the Python values a processed-data snapshot can hold, the exceptions the
      extraction code can raise, and the arithmetic of [/], [*] and [round];
    - [datetime] and [timedelta], as far as [utcnow().replace(...) + timedelta(hours=1)]
      needs them;
    - the metric catalog [sensor_descriptions];
    - the sensor entity, its constructor and [async_update], written in a small
      state-and-exception monad so that [try]/[except] reads as in the source;
    - the properties of the update/reschedule loop and of the catalog. *)

From Stdlib Require Import ZArith String Ascii List Bool Lia.
From Stdlib Require Import Floats.SpecFloat.
From stdpp Require Import base option gmap strings list fin_maps.

Open Scope string_scope.
Open Scope Z_scope.

(* ===================================================================== *)
(** ** Python values and exceptions *)
(* ===================================================================== *)

(** [datetime.datetime] in UTC.  The date is kept as its proleptic Gregorian
    ordinal ([date.toordinal()]), which is what [datetime.__add__] itself
    computes with; the time of day is kept field by field, because
    [datetime.replace] overwrites single fields. *)
Record datetime := mk_datetime {
  ordinal : Z;
  hour : Z;
  minute : Z;
  second : Z;
  microsecond : Z
}.

(** [datetime.timedelta], normalised as Python stores it. *)
Record timedelta := mk_timedelta {
  td_days : Z;
  td_seconds : Z;
  td_microseconds : Z
}.

(** The values found in a snapshot: [None], [bool], [int], [float] (IEEE 754
    binary64, through the bit-exact [spec_float] of the Standard Library),
    [str], [pandas.Timestamp] (a [datetime] with an extra nanosecond field),
    [datetime.datetime] and [list] (the price curves).  Numbers are Python's
    own [int] and [float]; array scalars of other libraries are not part of
    this universe. *)
#[warnings="-register-all"]
Inductive pyval :=
| VNone
| VBool (b : bool)
| VInt (n : Z)
| VFloat (f : spec_float)
| VStr (s : string)
| VTimestamp (d : datetime) (nanosecond : Z)
| VDatetime (d : datetime)
| VList (l : list pyval).

(** The exceptions of the data path.  [RuntimeError] stands for whatever the
    coordinator's [processed_data()] may raise. *)
Inductive exn :=
| KeyError (k : string)
| TypeError
| ZeroDivisionError
| OverflowError
| RuntimeError (msg : string).

(** The outcome of an expression: a value, or a raised exception. *)
Inductive result (A : Type) :=
| Ok (a : A)
| Raise (e : exn).

Arguments Ok {A} a.
Arguments Raise {A} e.

Definition rbind {A B} (r : result A) (k : A -> result B) : result B :=
  match r with
  | Ok a => k a
  | Raise e => Raise e
  end.

Definition rmap {A B} (f : A -> B) (r : result A) : result B :=
  rbind r (fun a => Ok (f a)).

#[global] Instance result_ret : MRet result := fun A a => Ok a.
#[global] Instance result_bind : MBind result := fun A B k r => rbind r k.
#[global] Instance result_fmap : FMap result := fun A B f r => rmap f r.

Definition raises {A} (r : result A) : bool :=
  match r with
  | Ok _ => false
  | Raise _ => true
  end.

(** [data[k]] on a [dict] with [str] keys. *)
Definition getitem (data : gmap string pyval) (k : string) : result pyval :=
  match data !! k with
  | Some v => Ok v
  | None => Raise (KeyError k)
  end.

(** [v is None] *)
Definition is_none (v : pyval) : bool :=
  match v with
  | VNone => true
  | _ => false
  end.

(* ===================================================================== *)
(** ** Arithmetic: [/], [*] and [round(_, ndigits)] *)
(* ===================================================================== *)

(** binary64 *)
Definition prec : Z := 53.
Definition emax : Z := 1024.

Definition float_is_zero (f : spec_float) : bool :=
  match f with
  | S754_zero _ => true
  | _ => false
  end.

(** A finite operation that came out infinite overflowed. *)
Definition check_overflow (f : spec_float) : result spec_float :=
  match f with
  | S754_infinity _ => Raise OverflowError
  | _ => Ok f
  end.

(** [float(n)] for an [int]: round to nearest even, [OverflowError] when the
    integer is too large. *)
Definition PyLong_AsDouble (n : Z) : result spec_float :=
  check_overflow (binary_normalize prec emax n 0 false).

(** The integer [n <> 0] as an unrounded float [n * 2^0]. *)
Definition exact_of_Z (n : Z) : spec_float :=
  match n with
  | Z0 => S754_zero false
  | Zpos p => S754_finite false p 0
  | Zneg p => S754_finite true p 0
  end.

(** [int.__truediv__]: the correctly rounded quotient of the two integers.
    [0 / b] is a zero whose sign is that of [b]. *)
Definition long_true_divide (a b : Z) : result spec_float :=
  if b =? 0 then Raise ZeroDivisionError
  else if a =? 0 then Ok (S754_zero (b <? 0))
  else check_overflow (SFdiv prec emax (exact_of_Z a) (exact_of_Z b)).

(** [float.__truediv__]: only a zero divisor raises; overflow gives [inf]. *)
Definition float_div (a b : spec_float) : result spec_float :=
  if float_is_zero b then Raise ZeroDivisionError
  else Ok (SFdiv prec emax a b).

Definition float_mul (a b : spec_float) : spec_float :=
  SFmul prec emax a b.

(** The numeric tower as far as the snapshot goes; [bool] is an [int]. *)
Inductive number :=
| NInt (n : Z)
| NFloat (f : spec_float).

Definition as_number (v : pyval) : option number :=
  match v with
  | VBool b => Some (NInt (Z.b2z b))
  | VInt n => Some (NInt n)
  | VFloat f => Some (NFloat f)
  | _ => None
  end.

Definition to_double (x : number) : result spec_float :=
  match x with
  | NInt n => PyLong_AsDouble n
  | NFloat f => Ok f
  end.

(** [v / w] *)
Definition py_truediv (v w : pyval) : result pyval :=
  match as_number v, as_number w with
  | Some (NInt a), Some (NInt b) => VFloat <$> long_true_divide a b
  | Some x, Some y =>
      a ← to_double x;
      b ← to_double y;
      VFloat <$> float_div a b
  | _, _ => Raise TypeError
  end.

Fixpoint str_repeat (s : string) (n : nat) : string :=
  match n with
  | O => ""
  | S n' => s +:+ str_repeat s n'
  end.

Fixpoint list_repeat {A} (l : list A) (n : nat) : list A :=
  match n with
  | O => []
  | S n' => l ++ list_repeat l n'
  end.

(** [v * w]: numbers multiply, a sequence times an [int] repeats. *)
Definition py_mul (v w : pyval) : result pyval :=
  match as_number v, as_number w with
  | Some (NInt a), Some (NInt b) => Ok (VInt (a * b))
  | Some x, Some y =>
      a ← to_double x;
      b ← to_double y;
      Ok (VFloat (float_mul a b))
  | None, Some (NInt n) =>
      match v with
      | VStr s => Ok (VStr (str_repeat s (Z.to_nat n)))
      | VList l => Ok (VList (list_repeat l (Z.to_nat n)))
      | _ => Raise TypeError
      end
  | Some (NInt n), None =>
      match w with
      | VStr s => Ok (VStr (str_repeat s (Z.to_nat n)))
      | VList l => Ok (VList (list_repeat l (Z.to_nat n)))
      | _ => Raise TypeError
      end
  | _, _ => Raise TypeError
  end.

(** [p / q] rounded to the nearest integer, ties to even ([0 <= p], [0 < q]). *)
Definition Zround_half_even (p q : Z) : Z :=
  let d := p / q in
  let r := p mod q in
  match 2 * r ?= q with
  | Lt => d
  | Gt => d + 1
  | Eq => if Z.even d then d else d + 1
  end.

(** The magnitude [m * 2^e] scaled by [10^ndigits] and rounded to an integer,
    ties to even, in exact arithmetic (what [_Py_dg_dtoa] in mode 3 yields). *)
Definition decimal_digits (m : positive) (e ndigits : Z) : Z :=
  let num := Z.pos m * (if 0 <=? e then 2 ^ e else 1)
                     * (if 0 <=? ndigits then 10 ^ ndigits else 1) in
  let den := (if 0 <=? e then 1 else 2 ^ (- e))
             * (if 0 <=? ndigits then 1 else 10 ^ (- ndigits)) in
  Zround_half_even num den.

(** [double_round]: the decimal rounding of [x] to [ndigits] places, read back
    as the nearest double ([_Py_dg_strtod]). *)
Definition double_round (x : spec_float) (ndigits : Z) : result spec_float :=
  match x with
  | S754_finite s m e =>
      let n := decimal_digits m e ndigits in
      if n =? 0 then Ok (S754_zero s)
      else if 0 <=? ndigits then
        check_overflow
          (SFdiv prec emax (S754_finite s (Z.to_pos n) 0)
                           (S754_finite false (Z.to_pos (10 ^ ndigits)) 0))
      else
        check_overflow
          (binary_normalize prec emax
             ((if s then - n else n) * 10 ^ (- ndigits)) 0 s)
  | _ => Ok x
  end.

(** [float.__round__(ndigits)] with an explicit [ndigits]. *)
Definition float_round (x : spec_float) (ndigits : Z) : result spec_float :=
  match x with
  | S754_finite s _ _ =>
      if 323 <? ndigits then Ok x
      else if ndigits <? -308 then Ok (S754_zero s)
      else double_round x ndigits
  | _ => Ok x
  end.

(** [int.__round__(ndigits)]: unchanged for [ndigits >= 0], else rounded to a
    multiple of [10^-ndigits], ties to even. *)
Definition long_round (n ndigits : Z) : Z :=
  if 0 <=? ndigits then n
  else
    let q := 10 ^ (- ndigits) in
    Z.sgn n * (Zround_half_even (Z.abs n) q * q).

(** [round(v, ndigits)] *)
Definition py_round (v : pyval) (ndigits : Z) : result pyval :=
  match v with
  | VFloat f => VFloat <$> float_round f ndigits
  | VInt n => Ok (VInt (long_round n ndigits))
  | VBool b => Ok (VInt (long_round (Z.b2z b) ndigits))
  | _ => Raise TypeError
  end.

(** Float literals used in examples. *)
Definition float_of_Z (n : Z) : spec_float := binary_normalize prec emax n 0 false.

(* ===================================================================== *)
(** ** [datetime] arithmetic *)
(* ===================================================================== *)

(** [d.replace(minute=m, second=s)]: the two fields are overwritten, every
    other field (the microseconds too) is kept. *)
Definition replace_minute_second (d : datetime) (m s : Z) : datetime :=
  {| ordinal := ordinal d; hour := hour d; minute := m; second := s;
     microsecond := microsecond d |}.

(** [timedelta(hours=h)] *)
Definition timedelta_hours (h : Z) : timedelta :=
  {| td_days := (h * 3600) / 86400;
     td_seconds := (h * 3600) mod 86400;
     td_microseconds := 0 |}.

(** [date.max.toordinal()]: the ordinal of 9999-12-31. *)
Definition MAXORDINAL : Z := 3652059.

(** The date and time that [d + td] carries to: microseconds into seconds
    and seconds into days, as [datetime.__add__] computes it through a
    [timedelta] built from the ordinal.  This is the value of [d + td]
    whenever Python returns one; [datetime_add_checked] below adds the range
    check that makes Python raise. *)
Definition datetime_add (d : datetime) (td : timedelta) : datetime :=
  let us := microsecond d + td_microseconds td in
  let s := hour d * 3600 + minute d * 60 + second d + td_seconds td
           + us / 1000000 in
  let days := ordinal d + td_days td + s / 86400 in
  let sod := s mod 86400 in
  {| ordinal := days;
     hour := sod / 3600;
     minute := (sod mod 3600) / 60;
     second := sod mod 60;
     microsecond := us mod 1000000 |}.

(** [d + td] with the range check of [datetime.__add__]: the result must
    have an ordinal in [1 .. MAXORDINAL], otherwise [OverflowError]. *)
Definition datetime_add_checked (d : datetime) (td : timedelta) : result datetime :=
  let r := datetime_add d td in
  if (0 <? ordinal r) && (ordinal r <=? MAXORDINAL) then Ok r
  else Raise OverflowError.

(** The whole hour a clock reading lies in, in the words of the
    specification: the time truncated to the hour, that is minutes, seconds
    and microseconds all zero. *)
Definition truncate_to_hour (d : datetime) : datetime :=
  {| ordinal := ordinal d; hour := hour d; minute := 0; second := 0;
     microsecond := 0 |}.

(** A well-formed [datetime]: a date from 0001-01-01 to 9999-12-31 and a
    time of day. *)
Definition valid_datetime (d : datetime) : Prop :=
  1 <= ordinal d <= MAXORDINAL /\
  0 <= hour d < 24 /\ 0 <= minute d < 60 /\ 0 <= second d < 60 /\
  0 <= microsecond d < 1000000.

(** [pandas.Timestamp.to_pydatetime()]: the nanoseconds are dropped. *)
Definition to_pydatetime (d : datetime) (nanosecond : Z) : datetime := d.

(* ===================================================================== *)
(** ** The metric catalog *)
(* ===================================================================== *)

(** [homeassistant.const]: [UnitOfEnergy.KILO_WATT_HOUR] and [PERCENTAGE]. *)
Definition KILO_WATT_HOUR : string := "kWh".
Definition PERCENTAGE : string := "%".

Inductive SensorDeviceClass := TIMESTAMP.
Inductive SensorStateClass := MEASUREMENT.

(** [EntsoeEntityDescription]: the fields of [SensorEntityDescription] the
    catalog sets (the others keep their [None] default) and [value_fn]. *)
Record EntsoeEntityDescription := mk_description {
  key : string;
  name : string;
  native_unit_of_measurement : option string;
  device_class : option SensorDeviceClass;
  state_class : option SensorStateClass;
  icon : option string;
  value_fn : gmap string pyval -> result pyval
}.

(** [lambda data: round(data["current_price"] / data["max_price"] * 100, 1)]:
    operands are evaluated left to right, then [/], [*] and [round]. *)
Definition percentage_of_max_fn (data : gmap string pyval) : result pyval :=
  c ← getitem data "current_price";
  m ← getitem data "max_price";
  q ← py_truediv c m;
  p ← py_mul q (VInt 100);
  py_round p 1.

Definition sensor_descriptions (currency : string) : list EntsoeEntityDescription :=
  [ {| key := "current_price";
       name := "Current electricity market price";
       native_unit_of_measurement := Some (currency +:+ "/" +:+ KILO_WATT_HOUR);
       device_class := None;
       state_class := Some MEASUREMENT;
       icon := None;
       value_fn := fun data => getitem data "current_price" |};
    {| key := "next_hour_price";
       name := "Next hour electricity market price";
       native_unit_of_measurement := Some (currency +:+ "/" +:+ KILO_WATT_HOUR);
       device_class := None;
       state_class := Some MEASUREMENT;
       icon := None;
       value_fn := fun data => getitem data "next_hour_price" |};
    {| key := "min_price";
       name := "Lowest energy price today";
       native_unit_of_measurement := Some (currency +:+ "/" +:+ KILO_WATT_HOUR);
       device_class := None;
       state_class := Some MEASUREMENT;
       icon := None;
       value_fn := fun data => getitem data "min_price" |};
    {| key := "max_price";
       name := "Highest energy price today";
       native_unit_of_measurement := Some (currency +:+ "/" +:+ KILO_WATT_HOUR);
       device_class := None;
       state_class := Some MEASUREMENT;
       icon := None;
       value_fn := fun data => getitem data "max_price" |};
    {| key := "avg_price";
       name := "Average electricity price today";
       native_unit_of_measurement := Some (currency +:+ "/" +:+ KILO_WATT_HOUR);
       device_class := None;
       state_class := Some MEASUREMENT;
       icon := None;
       value_fn := fun data => getitem data "avg_price" |};
    {| key := "percentage_of_max";
       name := "Current percentage of highest electricity price today";
       native_unit_of_measurement := Some PERCENTAGE;
       device_class := None;
       state_class := Some MEASUREMENT;
       icon := Some "mdi:percent";
       value_fn := percentage_of_max_fn |};
    {| key := "highest_price_time_today";
       name := "Time of highest price today";
       native_unit_of_measurement := None;
       device_class := Some TIMESTAMP;
       state_class := None;
       icon := None;
       value_fn := fun data => getitem data "time_max" |};
    {| key := "lowest_price_time_today";
       name := "Time of lowest price today";
       native_unit_of_measurement := None;
       device_class := Some TIMESTAMP;
       state_class := None;
       icon := None;
       value_fn := fun data => getitem data "time_min" |} ].

(** [needle in hay] for two [str]. *)
Fixpoint str_contains (needle hay : string) : bool :=
  String.prefix needle hay ||
  match hay with
  | EmptyString => false
  | String _ rest => str_contains needle rest
  end.

(** The five price metrics of the catalog. *)
Definition price_keys : list string :=
  ["current_price"; "next_hour_price"; "min_price"; "max_price"; "avg_price"].

(* ===================================================================== *)
(** ** The host's one-shot timers *)
(* ===================================================================== *)

(** [HassJob(self.async_schedule_update_ha_state)]: a job is known by the
    entity whose state update it schedules. *)
Record HassJob := mk_job { job_target : string }.

(** A pending point-in-time listener: the handle behind the unsubscribe
    callable that [async_track_point_in_utc_time] returned, the job to run
    and the UTC time to run it at. *)
Record timer := mk_timer {
  t_handle : nat;
  t_job : HassJob;
  t_when : datetime
}.

Record Hass := mk_hass {
  timers : list timer;
  next_handle : nat
}.

(** [event.async_track_point_in_utc_time(hass, job, point_in_time)] *)
Definition async_track_point_in_utc_time (hass : Hass) (job : HassJob)
    (point_in_time : datetime) : Hass * nat :=
  let h := next_handle hass in
  ({| timers := timers hass ++ [ {| t_handle := h; t_job := job; t_when := point_in_time |} ];
      next_handle := S h |}, h).

(** Calling the unsubscribe callable with handle [h]: the listener is
    removed if it is still pending, and nothing happens otherwise. *)
Definition unsub_call (hass : Hass) (h : nat) : Hass :=
  {| timers := filter (fun t => t_handle t ≠ h) (timers hass);
     next_handle := next_handle hass |}.

(** The listener with handle [h] fires: the host removes it and then runs
    its job. *)
Definition fire (hass : Hass) (h : nat) : Hass := unsub_call hass h.

(** The wake-ups pending for a job. *)
Definition pending_for (job : HassJob) (hass : Hass) : list timer :=
  filter (fun t => job_target (t_job t) = job_target job) (timers hass).

(* ===================================================================== *)
(** ** The coordinator, as this module sees it *)
(* ===================================================================== *)

(** Modelled from the spec: the coordinator, whose module [coordinator.py] is
    not among the sources.  The sensor reads a [data] attribute, of which
    only its being [None] or not matters, and calls the [processed_data()]
    accessor, which returns the processed-data snapshot or raises.  Both are
    inputs of every update. *)
Record EntsoeCoordinator := mk_coordinator {
  data : option pyval;
  processed_data : result (gmap string pyval)
}.

(* ===================================================================== *)
(** ** The sensor entity *)
(* ===================================================================== *)

Record EntsoeSensor := mk_sensor {
  description : EntsoeEntityDescription;
  entity_description : EntsoeEntityDescription;
  last_update_success : bool;
  entity_id : string;
  _attr_unique_id : string;
  _attr_name : string;
  _attr_native_value : pyval;
  _attr_extra_state_attributes : option (gmap string pyval);
  _update_job : HassJob;
  _unsub_update : option nat
}.

Definition set_attr_native_value (v : pyval) (s : EntsoeSensor) : EntsoeSensor :=
  {| description := description s; entity_description := entity_description s;
     last_update_success := last_update_success s; entity_id := entity_id s;
     _attr_unique_id := _attr_unique_id s; _attr_name := _attr_name s;
     _attr_native_value := v;
     _attr_extra_state_attributes := _attr_extra_state_attributes s;
     _update_job := _update_job s; _unsub_update := _unsub_update s |}.

Definition set_attr_extra_state_attributes (a : gmap string pyval)
    (s : EntsoeSensor) : EntsoeSensor :=
  {| description := description s; entity_description := entity_description s;
     last_update_success := last_update_success s; entity_id := entity_id s;
     _attr_unique_id := _attr_unique_id s; _attr_name := _attr_name s;
     _attr_native_value := _attr_native_value s;
     _attr_extra_state_attributes := Some a;
     _update_job := _update_job s; _unsub_update := _unsub_update s |}.

Definition set_last_update_success (b : bool) (s : EntsoeSensor) : EntsoeSensor :=
  {| description := description s; entity_description := entity_description s;
     last_update_success := b; entity_id := entity_id s;
     _attr_unique_id := _attr_unique_id s; _attr_name := _attr_name s;
     _attr_native_value := _attr_native_value s;
     _attr_extra_state_attributes := _attr_extra_state_attributes s;
     _update_job := _update_job s; _unsub_update := _unsub_update s |}.

Definition set_unsub_update (u : option nat) (s : EntsoeSensor) : EntsoeSensor :=
  {| description := description s; entity_description := entity_description s;
     last_update_success := last_update_success s; entity_id := entity_id s;
     _attr_unique_id := _attr_unique_id s; _attr_name := _attr_name s;
     _attr_native_value := _attr_native_value s;
     _attr_extra_state_attributes := _attr_extra_state_attributes s;
     _update_job := _update_job s; _unsub_update := u |}.

(** [available] *)
Definition available (s : EntsoeSensor) : bool := last_update_success s.

Section Constructor.

(** [DOMAIN] comes from [const.py]. *)
Variable DOMAIN : string.

(** [name not in (None, "")] *)
Definition has_name (nm : option string) : bool :=
  match nm with
  | None => false
  | Some n => negb (String.eqb n "")
  end.

(** [f"{name}"] *)
Definition fstr (nm : option string) : string :=
  match nm with
  | Some n => n
  | None => "None"
  end.

(** [EntsoeSensor.__init__(coordinator, description, name)].  The value and
    the extra attributes start from the class defaults, [None]. *)
Definition EntsoeSensor_init (d : EntsoeEntityDescription) (nm : option string) : EntsoeSensor :=
  let ids :=
    if has_name nm then
      (DOMAIN +:+ "." +:+ fstr nm +:+ "_" +:+ name d,
       "entsoe." +:+ fstr nm +:+ "_" +:+ key d,
       name d +:+ " (" +:+ fstr nm +:+ ")")
    else
      (DOMAIN +:+ "." +:+ name d,
       "entsoe." +:+ key d,
       name d) in
  {| description := d;
     entity_description := d;
     last_update_success := true;
     entity_id := ids.1.1;
     _attr_unique_id := ids.1.2;
     _attr_name := ids.2;
     _attr_native_value := VNone;
     _attr_extra_state_attributes := None;
     _update_job := {| job_target := ids.1.1 |};
     _unsub_update := None |}.

End Constructor.

(* ===================================================================== *)
(** ** State, exceptions and [try]/[except] *)
(* ===================================================================== *)

(** What [_LOGGER] receives; the message texts are left out. *)
Inductive log_record :=
| LogDebug (entity : string) (value : pyval)
| LogWarning (entity : string) (exc : exn).

(** The mutable state an update touches: the entity itself, the host's
    timers and the log. *)
Record World := mk_world {
  w_self : EntsoeSensor;
  w_hass : Hass;
  w_log : list log_record
}.

(** A statement runs on a state and ends normally or by raising; what it
    wrote before raising stays written. *)
Definition M (A : Type) : Type := World -> result A * World.

#[global] Instance M_ret : MRet M := fun A a w => (Ok a, w).
#[global] Instance M_bind : MBind M := fun A B k m w =>
  match m w with
  | (Ok a, w') => k a w'
  | (Raise e, w') => (Raise e, w')
  end.

(** An expression that may raise, used as a statement. *)
Definition lift {A} (r : result A) : M A := fun w => (r, w).

(** [try: body except Exception as exc: handler] *)
Definition try_except {A} (body : M A) (handler : exn -> M A) : M A := fun w =>
  match body w with
  | (Ok a, w') => (Ok a, w')
  | (Raise e, w') => handler e w'
  end.

Definition get_self : M EntsoeSensor := fun w => (Ok (w_self w), w).

Definition modify_self (f : EntsoeSensor -> EntsoeSensor) : M unit := fun w =>
  (Ok tt, {| w_self := f (w_self w); w_hass := w_hass w; w_log := w_log w |}).

Definition modify_hass {A} (f : Hass -> Hass * A) : M A := fun w =>
  let (hass', a) := f (w_hass w) in
  (Ok a, {| w_self := w_self w; w_hass := hass'; w_log := w_log w |}).

Definition log (r : log_record) : M unit := fun w =>
  (Ok tt, {| w_self := w_self w; w_hass := w_hass w; w_log := w_log w ++ [r] |}).

Definition pass : M unit := mret tt.

(* ===================================================================== *)
(** ** [EntsoeSensor.async_update] *)
(* ===================================================================== *)

(** [if isinstance(value, Timestamp): value = value.to_pydatetime()] *)
Definition convert_timestamp (value : pyval) : pyval :=
  match value with
  | VTimestamp d ns => VDatetime (to_pydatetime d ns)
  | _ => value
  end.

(** The body of the [try] block. *)
Definition attempt (coordinator : EntsoeCoordinator) : M unit :=
  processed ← lift (processed_data coordinator);
  self ← get_self;
  value ← lift (value_fn (entity_description self) processed);
  let value := convert_timestamp value in
  modify_self (set_attr_native_value value);;
  self ← get_self;
  (if String.eqb (key (description self)) "avg_price"
      && negb (is_none (_attr_native_value self))
   then
     prices_today ← lift (getitem processed "prices_today");
     prices_tomorrow ← lift (getitem processed "prices_tomorrow");
     prices ← lift (getitem processed "prices");
     modify_self (set_attr_extra_state_attributes
       {[ "prices_today" := prices_today;
          "prices_tomorrow" := prices_tomorrow;
          "prices" := prices ]})
   else pass);;
  modify_self (set_last_update_success true);;
  self ← get_self;
  log (LogDebug (entity_id self) value).

(** The [except Exception as exc] handler. *)
Definition on_error (exc : exn) : M unit :=
  modify_self (set_last_update_success false);;
  self ← get_self;
  log (LogWarning (entity_id self) exc).

(** Cancel the currently scheduled event if there is any. *)
Definition cancel_pending : M unit :=
  self ← get_self;
  match _unsub_update self with
  | Some h =>
      modify_hass (fun hass => (unsub_call hass h, tt));;
      modify_self (set_unsub_update None)
  | None => pass
  end.

(** The point in time handed to the host:
    [utcnow().replace(minute=0, second=0) + timedelta(hours=1)].  The sum is
    taken without the range check: it is the value of the expression for
    every clock reading before 9999-12-31 23:00, the only hour in which the
    expression raises instead ([next_update_time_checked]). *)
Definition next_update_time (utcnow : datetime) : datetime :=
  datetime_add (replace_minute_second utcnow 0 0) (timedelta_hours 1).

(** The same expression with the range check of [datetime.__add__]. *)
Definition next_update_time_checked (utcnow : datetime) : result datetime :=
  datetime_add_checked (replace_minute_second utcnow 0 0) (timedelta_hours 1).

Definition schedule_next (utcnow : datetime) : M unit :=
  self ← get_self;
  h ← modify_hass (fun hass =>
         async_track_point_in_utc_time hass (_update_job self) (next_update_time utcnow));
  modify_self (set_unsub_update (Some h)).

(** [async_update], given the coordinator's state and the clock at the
    moment of the call. *)
Definition async_update (coordinator : EntsoeCoordinator) (utcnow : datetime) : M unit :=
  (match data coordinator with
   | Some _ => try_except (attempt coordinator) on_error
   | None => pass
   end);;
  cancel_pending;;
  schedule_next utcnow.

(** The state after an update. *)
Definition after_update (coordinator : EntsoeCoordinator) (utcnow : datetime)
    (w : World) : World :=
  (async_update coordinator utcnow w).2.

(* ===================================================================== *)
(** ** Runs of the update loop *)
(* ===================================================================== *)

(** What happens to one entity over time: the host calls [async_update]
    (at set-up, or because a wake-up ran the update job), or a pending
    listener fires and the host drops it. *)
Inductive event :=
| EvUpdate (coordinator : EntsoeCoordinator) (utcnow : datetime)
| EvFire (h : nat).

Definition step (w : World) (ev : event) : World :=
  match ev with
  | EvUpdate c t => after_update c t w
  | EvFire h =>
      {| w_self := w_self w; w_hass := fire (w_hass w) h; w_log := w_log w |}
  end.

Definition run (evs : list event) (w : World) : World :=
  fold_left step evs w.

(** The wake-ups pending for the entity of a state. *)
Definition pending (w : World) : list timer :=
  pending_for (_update_job (w_self w)) (w_hass w).

(** A freshly constructed entity on a host that holds no listener of its
    job yet. *)
Definition fresh (w : World) : Prop :=
  _unsub_update (w_self w) = None /\
  pending w = [] /\
  NoDup (t_handle <$> timers (w_hass w)) /\
  (forall tm, tm ∈ timers (w_hass w) -> (t_handle tm < next_handle (w_hass w))%nat).

(* ===================================================================== *)
(** ** Sample inputs *)
(* ===================================================================== *)

(** A clock reading inside an hour: 12:34:56.789012 on day 738000. *)
Definition sample_now : datetime := mk_datetime 738000 12 34 56 789012.

Definition sample_catalog : list EntsoeEntityDescription := sensor_descriptions "EUR".

Definition current_price_description : EntsoeEntityDescription :=
  {| key := "current_price";
     name := "Current electricity market price";
     native_unit_of_measurement := Some "EUR/kWh";
     device_class := None;
     state_class := Some MEASUREMENT;
     icon := None;
     value_fn := fun data => getitem data "current_price" |}.

Definition avg_price_description : EntsoeEntityDescription :=
  {| key := "avg_price";
     name := "Average electricity price today";
     native_unit_of_measurement := Some "EUR/kWh";
     device_class := None;
     state_class := Some MEASUREMENT;
     icon := None;
     value_fn := fun data => getitem data "avg_price" |}.

Definition percentage_description : EntsoeEntityDescription :=
  {| key := "percentage_of_max";
     name := "Current percentage of highest electricity price today";
     native_unit_of_measurement := Some "%";
     device_class := None;
     state_class := Some MEASUREMENT;
     icon := Some "mdi:percent";
     value_fn := percentage_of_max_fn |}.

Definition empty_hass : Hass := {| timers := []; next_handle := 0 |}.

(** An entity right after construction, on a host without listeners. *)
Definition new_world (d : EntsoeEntityDescription) : World :=
  {| w_self := EntsoeSensor_init "entsoe" d (Some "home");
     w_hass := empty_hass;
     w_log := [] |}.

(** A coordinator that has not fetched anything yet. *)
Definition coordinator_without_data : EntsoeCoordinator :=
  {| data := None; processed_data := Raise (RuntimeError "no data") |}.

(** A coordinator holding the given snapshot. *)
Definition coordinator_with (snapshot : gmap string pyval) : EntsoeCoordinator :=
  {| data := Some (VList []); processed_data := Ok snapshot |}.

Definition price_curve : pyval := VList [VInt 3; VInt 5].

Definition full_snapshot : gmap string pyval :=
  {[ "current_price" := VInt 50;
     "next_hour_price" := VInt 60;
     "min_price" := VInt 10;
     "max_price" := VInt 100;
     "avg_price" := VInt 40;
     "time_min" := VTimestamp (mk_datetime 738000 3 0 0 0) 0;
     "time_max" := VTimestamp (mk_datetime 738000 18 0 0 0) 0;
     "prices_today" := price_curve;
     "prices_tomorrow" := VList [];
     "prices" := price_curve ]}.

(** The state of an entity after one good update from [full_snapshot]. *)
Definition updated_world (d : EntsoeEntityDescription) : World :=
  after_update (coordinator_with full_snapshot) sample_now (new_world d).

(** A snapshot whose current price is null. *)
Definition null_price_snapshot : gmap string pyval :=
  <[ "current_price" := VNone ]> full_snapshot.

(** A snapshot with an average price but without the price curves. *)
Definition no_curves_snapshot : gmap string pyval :=
  {[ "avg_price" := VInt 3 ]}.

(** A snapshot whose highest price is zero. *)
Definition zero_max_snapshot : gmap string pyval :=
  {[ "current_price" := VInt 50; "max_price" := VInt 0 ]}.

(** A snapshot whose highest price is zero and whose current price is null. *)
Definition null_current_zero_max_snapshot : gmap string pyval :=
  {[ "current_price" := VNone; "max_price" := VInt 0 ]}.

(* ===================================================================== *)
(** ** Invariant of the update loop *)
(* ===================================================================== *)

(** The handles of the host's listeners are distinct and were all handed
    out already, and the entity remembers the handle of every listener that
    runs its job. *)
Definition well_scheduled (w : World) : Prop :=
  NoDup (t_handle <$> timers (w_hass w)) /\
  (forall tm, tm ∈ timers (w_hass w) -> (t_handle tm < next_handle (w_hass w))%nat) /\
  (forall tm, tm ∈ timers (w_hass w) ->
     job_target (t_job tm) = job_target (_update_job (w_self w)) ->
     _unsub_update (w_self w) = Some (t_handle tm)).

(* ===================================================================== *)
(** ** Readings of the specification that are tested against the source *)
(* ===================================================================== *)

(** [v == 0] for a snapshot field. *)
Definition equals_zero (v : pyval) : bool :=
  match as_number v with
  | Some (NInt n) => n =? 0
  | Some (NFloat f) => float_is_zero f
  | None => false
  end.

(** Whenever [max_price] is zero the percentage extraction would raise a
    division error. *)
Definition zero_max_raises_division_error (data : gmap string pyval) : Prop :=
  forall m,
    data !! "max_price" = Some m ->
    equals_zero m = true ->
    percentage_of_max_fn data = Raise ZeroDivisionError.

(** Without a snapshot an update would leave the timers and the entity's
    handle alone. *)
Definition no_reschedule_without_snapshot (c : EntsoeCoordinator) (t : datetime)
    (w : World) : Prop :=
  data c = None ->
  w_hass (after_update c t w) = w_hass w /\
  _unsub_update (w_self (after_update c t w)) = _unsub_update (w_self w).

(** Whenever the [try] block raises, value and attributes would be those
    from before the update. *)
Definition failure_keeps_state (c : EntsoeCoordinator) (t : datetime) (w : World) : Prop :=
  is_Some (data c) ->
  raises (attempt c w).1 = true ->
  (async_update c t w).1 = Ok tt /\
  available (w_self (after_update c t w)) = false /\
  _attr_native_value (w_self (after_update c t w)) = _attr_native_value (w_self w) /\
  _attr_extra_state_attributes (w_self (after_update c t w))
    = _attr_extra_state_attributes (w_self w).

(** The expression whose result is stored as the value: the snapshot is
    fetched and the extraction function applied. *)
Definition extraction (c : EntsoeCoordinator) (self : EntsoeSensor) : result pyval :=
  processed ← processed_data c;
  value_fn (entity_description self) processed.

(** Every entry of the catalog would carry a unit that contains the
    currency code. *)
Definition every_unit_contains_currency (currency : string) : Prop :=
  forall d, d ∈ sensor_descriptions currency ->
    exists u, native_unit_of_measurement d = Some u /\ str_contains currency u = true.

(* ===================================================================== *)
(** ** String helpers for the identifiers *)
(* ===================================================================== *)

(** [s.endswith(t)] *)
Fixpoint str_ends_with (s t : string) : bool :=
  String.eqb s t ||
  match s with
  | EmptyString => false
  | String _ rest => str_ends_with rest t
  end.

(** ["_" not in s] *)
Fixpoint underscore_free (s : string) : bool :=
  match s with
  | EmptyString => true
  | String a rest => negb (Ascii.eqb a "_") && underscore_free rest
  end.

(** The keys and display names of the catalog, which do not depend on the
    currency. *)
Definition catalog_keys : list string := key <$> sensor_descriptions "".
Definition catalog_names : list string := name <$> sensor_descriptions "".

(** No key ends in an underscore followed by another key, and no key starts
    with an underscore. *)
Definition keys_separable : bool :=
  forallb (fun k => forallb (fun k' => negb (str_ends_with k ("_" +:+ k'))) catalog_keys)
          catalog_keys.

(* ===================================================================== *)
(** ** One-decimal floats *)
(* ===================================================================== *)

(** The double nearest to the decimal number [n / 10] (negated when [s]):
    what the literal with one decimal place denotes. *)
Definition one_decimal (s : bool) (n : Z) : spec_float :=
  if n =? 0 then S754_zero s
  else SFdiv prec emax (S754_finite s (Z.to_pos n) 0) (S754_finite false 10 0).

(** [n / 10] is within 0.05 of the exact percentage [100 * |c| / |m|],
    written without division. *)
Definition near_percentage (c m n : Z) : Prop :=
  0 <= n /\ 2 * Z.abs (n * Z.abs m - 1000 * Z.abs c) <= Z.abs m.

Definition float_same (f g : spec_float) : bool :=
  match f, g with
  | S754_zero s, S754_zero s' => Bool.eqb s s'
  | S754_infinity s, S754_infinity s' => Bool.eqb s s'
  | S754_nan, S754_nan => true
  | S754_finite s m e, S754_finite s' m' e' =>
      Bool.eqb s s' && Pos.eqb m m' && Z.eqb e e'
  | _, _ => false
  end.

(** [round(c / m * 100, 1)] for two [int] prices is a float, namely the
    one-decimal float of the tenths below or above the exact percentage,
    whichever is within 0.05 of it. *)
Definition percentage_checked (c m : Z) : bool :=
  match (q ← py_truediv (VInt c) (VInt m); p ← py_mul q (VInt 100); py_round p 1) with
  | Ok (VFloat f) =>
      let s := xorb (c <? 0) (m <? 0) in
      let n0 := (1000 * Z.abs c) / Z.abs m in
      existsb (fun n => (0 <=? n)
                        && (2 * Z.abs (n * Z.abs m - 1000 * Z.abs c) <=? Z.abs m)
                        && float_same f (one_decimal s n))
              [n0; n0 + 1]
  | _ => false
  end.

(** All pairs of [int] prices up to [R] in magnitude, the divisor not zero. *)
Definition all_checked (R : Z) : bool :=
  forallb (fun c => forallb (fun m => (m =? 0) || percentage_checked c m)
                      (seqZ (- R) (2 * R + 1)))
          (seqZ (- R) (2 * R + 1)).

(* ===================================================================== *)
(** ** [async_setup_entry] *)
(* ===================================================================== *)

(** [d[k]] on a [dict] with [str] keys, for any kind of value. *)
Definition dict_getitem {V} (d : gmap string V) (k : string) : result V :=
  match d !! k with
  | Some v => Ok v
  | None => Raise (KeyError k)
  end.

(** [d.get(k, default)] *)
Definition dict_get {V} (d : gmap string V) (k : string) (default : V) : V :=
  match d !! k with
  | Some v => v
  | None => default
  end.

(** The part of a [ConfigEntry] that the set-up reads.  An option is a
    [str] or [None]. *)
Record ConfigEntry := mk_config_entry {
  entry_id : string;
  options : gmap string (option string)
}.

(** One call of the host's [async_add_entities(new_entities,
    update_before_add)]. *)
Record AddEntitiesCall := mk_add_entities {
  new_entities : list EntsoeSensor;
  update_before_add : bool
}.

Section Setup.

(** The names of [const.py]. *)
Variables DOMAIN CONF_COORDINATOR CONF_ENTITY_NAME CONF_CURRENCY : string.
Variable DEFAULT_CURRENCY : string.

(** The [for] loop: for each description the name option is looked up anew
    and a sensor is appended. *)
Fixpoint create_entities (descriptions : list EntsoeEntityDescription)
    (config_entry : ConfigEntry) (entities : list EntsoeSensor)
    : result (list EntsoeSensor) :=
  match descriptions with
  | [] => Ok entities
  | description :: rest =>
      nm ← dict_getitem (options config_entry) CONF_ENTITY_NAME;
      create_entities rest config_entry
        (entities ++ [EntsoeSensor_init DOMAIN description nm])
  end.

(** [async_setup_entry(hass, config_entry, async_add_entities)], on
    [hass.data] and the list of calls the host has received so far. *)
Definition async_setup_entry
    (hass_data : gmap string (gmap string (gmap string EntsoeCoordinator)))
    (config_entry : ConfigEntry) (calls : list AddEntitiesCall)
    : result unit * list AddEntitiesCall :=
  match
    (by_domain ← dict_getitem hass_data DOMAIN;
     by_entry ← dict_getitem by_domain (entry_id config_entry);
     entsoe_coordinator ← dict_getitem by_entry CONF_COORDINATOR;
     create_entities
       (sensor_descriptions
          (fstr (dict_get (options config_entry) CONF_CURRENCY (Some DEFAULT_CURRENCY))))
       config_entry [])
  with
  | Ok entities =>
      (Ok tt, (calls ++ [ {| new_entities := entities; update_before_add := true |} ])%list)
  | Raise e => (Raise e, calls)
  end.

End Setup.

(* ===================================================================== *)
(** ** Observations used in the properties *)
(* ===================================================================== *)

(** [isinstance(v, Timestamp)] *)
Definition is_timestamp (v : pyval) : bool :=
  match v with
  | VTimestamp _ _ => true
  | _ => false
  end.

(** [isinstance(v, float)] *)
Definition is_float (v : pyval) : bool :=
  match v with
  | VFloat _ => true
  | _ => false
  end.

(** A point in time as microseconds on one axis, for comparing. *)
Definition to_microseconds (d : datetime) : Z :=
  (((ordinal d * 24 + hour d) * 60 + minute d) * 60 + second d) * 1000000
  + microsecond d.

(** The ten fields that the extraction functions and the attribute capture
    read from a snapshot. *)
Definition snapshot_fields : list string :=
  ["current_price"; "next_hour_price"; "min_price"; "max_price"; "avg_price";
   "time_max"; "time_min"; "prices_today"; "prices_tomorrow"; "prices"].

Definition complete (snapshot : gmap string pyval) : Prop :=
  forall k, k ∈ snapshot_fields -> is_Some (snapshot !! k).

(** The listeners of all other jobs. *)
Definition others_pending (w : World) : list timer :=
  filter (fun tm => job_target (t_job tm) ≠ job_target (_update_job (w_self w)))
         (timers (w_hass w)).

(** The handle an entity holds belongs to no listener of another job. *)
Definition owns_handle (w : World) : Prop :=
  forall h tm,
    _unsub_update (w_self w) = Some h ->
    tm ∈ timers (w_hass w) ->
    t_handle tm = h ->
    job_target (t_job tm) = job_target (_update_job (w_self w)).

(** Sample set-up inputs. *)
Definition sample_hass_data : gmap string (gmap string (gmap string EntsoeCoordinator)) :=
  {[ "entsoe" := {[ "entry1" := {[ "coordinator" := coordinator_without_data ]} ]} ]}.

Definition sample_entry : ConfigEntry :=
  {| entry_id := "entry1";
     options := {[ "name" := Some "home"; "currency" := Some "EUR" ]} |}.

Definition sample_entry_without_name : ConfigEntry :=
  {| entry_id := "entry1"; options := {[ "currency" := Some "EUR" ]} |}.

Definition sample_entry_without_currency : ConfigEntry :=
  {| entry_id := "entry1"; options := {[ "name" := Some "home" ]} |}.

(* ===================================================================== *)
(** * Properties *)
(* ===================================================================== *)

(** ** Running statements *)

Ltac unfold_stmt :=
  unfold after_update, async_update, attempt, on_error, cancel_pending,
    schedule_next, try_except, lift, get_self, modify_self, modify_hass, log,
    pass, mbind, M_bind, mret, M_ret in *.

(** Case analysis on every expression of [attempt] that may raise. *)
Ltac split_attempt :=
  repeat match goal with
  | |- context [match processed_data ?c with _ => _ end] =>
      destruct (processed_data c) eqn:?
  | |- context [match value_fn ?d ?s with _ => _ end] =>
      destruct (value_fn d s) eqn:?
  | |- context [if ?b then _ else _] => destruct b eqn:?
  | |- context [match getitem ?s ?k with _ => _ end] =>
      destruct (getitem s k) eqn:?
  | |- context [match _unsub_update ?s with _ => _ end] =>
      destruct (_unsub_update s) eqn:?
  | |- context [match data ?c with _ => _ end] =>
      destruct (data c) eqn:?
  end; simpl in *.

(** An update always returns normally. *)
Lemma async_update_returns c t w : (async_update c t w).1 = Ok tt.
Proof.
  destruct w as [self hass lg]. unfold_stmt. simpl.
  split_attempt; by simplify_eq.
Qed.

(** The job of an entity never changes. *)
Lemma after_update_job c t w :
  _update_job (w_self (after_update c t w)) = _update_job (w_self w).
Proof.
  destruct w as [self hass lg]. unfold_stmt. simpl.
  split_attempt; by simplify_eq.
Qed.

(** What an update does to the timers, whatever the coordinator holds: the
    pending handle, if any, is cancelled, and one listener is added. *)
Lemma after_update_hass c t w :
  w_hass (after_update c t w) =
  (async_track_point_in_utc_time
     (match _unsub_update (w_self w) with
      | Some h => unsub_call (w_hass w) h
      | None => w_hass w
      end)
     (_update_job (w_self w)) (next_update_time t)).1.
Proof.
  destruct w as [self hass lg]. unfold_stmt. simpl.
  split_attempt; by simplify_eq.
Qed.

Lemma after_update_unsub c t w :
  _unsub_update (w_self (after_update c t w)) = Some (next_handle (w_hass w)).
Proof.
  destruct w as [self hass lg]. unfold_stmt. simpl.
  split_attempt; by simplify_eq.
Qed.

(** ** Updates without a snapshot *)

(** Without a snapshot the extra attributes are not touched. *)
Lemma attributes_kept_without_snapshot c t w :
  data c = None ->
  _attr_extra_state_attributes (w_self (after_update c t w))
    = _attr_extra_state_attributes (w_self w).
Proof.
  intros Hdata. destruct w as [self hass lg]. unfold_stmt. simpl.
  rewrite Hdata. simpl. destruct (_unsub_update self); reflexivity.
Qed.

(** C5: when [coordinator.data] is [None], an update leaves the availability
    flag, the current value and the extra attributes as they were, and
    records nothing: neither a success nor a failure. *)
Theorem update_without_snapshot_keeps_state c t w :
  data c = None ->
  available (w_self (after_update c t w)) = available (w_self w) /\
  _attr_native_value (w_self (after_update c t w)) = _attr_native_value (w_self w) /\
  _attr_extra_state_attributes (w_self (after_update c t w))
    = _attr_extra_state_attributes (w_self w) /\
  w_log (after_update c t w) = w_log w.
Proof.
  intros Hdata. destruct w as [self hass lg]. unfold_stmt. simpl.
  rewrite Hdata. simpl. destruct (_unsub_update self); simpl; repeat split; reflexivity.
Qed.

Lemma update_without_snapshot_keeps_state_witness :
  data coordinator_without_data = None /\
  _attr_native_value
    (w_self (after_update coordinator_without_data sample_now
               (updated_world current_price_description)))
  = VInt 50.
Proof.
  split; [reflexivity |].
  destruct (update_without_snapshot_keeps_state coordinator_without_data sample_now
              (updated_world current_price_description) eq_refl)
    as (_ & Hv & _).
  rewrite Hv. vm_compute. reflexivity.
Defined.

(** Counterexample to C3: a fresh entity, a coordinator without data; the
    update installs a wake-up all the same. *)
Lemma no_reschedule_without_snapshot_fails :
  ~ no_reschedule_without_snapshot coordinator_without_data sample_now
      (new_world current_price_description).
Proof.
  intros H. destruct (H eq_refl) as [_ Hu]. vm_compute in Hu. discriminate Hu.
Qed.

(** C3, amended: cancelling and rescheduling happen on every update call,
    also when [coordinator.data] is [None]: the pending wake-up, if there is
    one, is cancelled, and one new wake-up is scheduled and remembered. *)
Theorem update_always_reschedules c t w :
  w_hass (after_update c t w) =
    (async_track_point_in_utc_time
       (match _unsub_update (w_self w) with
        | Some h => unsub_call (w_hass w) h
        | None => w_hass w
        end)
       (_update_job (w_self w)) (next_update_time t)).1 /\
  _unsub_update (w_self (after_update c t w)) = Some (next_handle (w_hass w)).
Proof.
  split; [apply after_update_hass | apply after_update_unsub].
Qed.

(** An update without data on an entity that has a wake-up pending: the old
    listener is gone, a new one is there. *)
Example update_without_snapshot_replaces_wakeup :
  map t_handle (timers (w_hass (updated_world current_price_description))) = [0%nat] /\
  map t_handle (timers (w_hass (after_update coordinator_without_data sample_now
                                   (updated_world current_price_description)))) = [1%nat].
Proof. split; vm_compute; reflexivity. Qed.

(** ** The scheduled time *)

(** C4 at 12:34:56.789012: [replace(minute=0, second=0)] keeps the
    microseconds, so the wake-up is set for 13:00:00.789012 and not for the
    whole hour 13:00:00. *)
Theorem scheduled_time_keeps_microseconds :
  map t_when (timers (w_hass (after_update (coordinator_with full_snapshot) sample_now
                                (new_world current_price_description))))
    = [mk_datetime 738000 13 0 0 789012] /\
  datetime_add (truncate_to_hour sample_now) (timedelta_hours 1)
    = mk_datetime 738000 13 0 0 0.
Proof. split; vm_compute; reflexivity. Qed.

(** In general the scheduled time is the next whole hour plus the
    microseconds of the clock reading. *)
Lemma next_update_time_microsecond t :
  valid_datetime t ->
  next_update_time t =
  {| ordinal := ordinal (datetime_add (truncate_to_hour t) (timedelta_hours 1));
     hour := hour (datetime_add (truncate_to_hour t) (timedelta_hours 1));
     minute := 0; second := 0; microsecond := microsecond t |}.
Proof.
  intros (_ & Hh & Hm & Hs & Hu).
  unfold next_update_time, datetime_add, replace_minute_second, truncate_to_hour,
    timedelta_hours. simpl.
  change (1 * 3600 / 86400) with 0. change ((1 * 3600) mod 86400) with 3600.
  rewrite !Z.add_0_r.
  rewrite (Z.div_small (microsecond t) 1000000) by lia.
  rewrite (Z.mod_small (microsecond t) 1000000) by lia.
  change (0 / 1000000) with 0. rewrite !Z.add_0_r.
  f_equal; Z.div_mod_to_equations; lia.
Qed.

(** ** Updates with a snapshot *)

(** C10: when the coordinator holds a snapshot and the extraction function
    returns [None] without raising, the update stores [None] as the current
    value, whatever was held before, and marks the entity available. *)
Theorem null_extraction_is_stored c t w snapshot :
  is_Some (data c) ->
  processed_data c = Ok snapshot ->
  value_fn (entity_description (w_self w)) snapshot = Ok VNone ->
  _attr_native_value (w_self (after_update c t w)) = VNone /\
  available (w_self (after_update c t w)) = true.
Proof.
  intros [raw Hdata] Hproc Hval. destruct w as [self hass lg].
  unfold_stmt. simpl in *. rewrite Hdata, Hproc. simpl. rewrite Hval. simpl.
  rewrite andb_false_r. simpl.
  destruct (_unsub_update self); simpl; split; reflexivity.
Qed.

Lemma null_extraction_is_stored_witness :
  _attr_native_value (w_self (updated_world current_price_description)) = VInt 50 /\
  _attr_native_value
    (w_self (after_update (coordinator_with null_price_snapshot) sample_now
               (updated_world current_price_description))) = VNone /\
  available
    (w_self (after_update (coordinator_with null_price_snapshot) sample_now
               (updated_world current_price_description))) = true.
Proof.
  split; [vm_compute; reflexivity |].
  apply (null_extraction_is_stored (coordinator_with null_price_snapshot) sample_now
           (updated_world current_price_description) null_price_snapshot).
  - eexists; reflexivity.
  - reflexivity.
  - vm_compute. reflexivity.
Defined.

(** The attributes captured from a snapshot for the average-price metric. *)
Lemma attempt_avg_price_attributes c w snapshot v :
  processed_data c = Ok snapshot ->
  value_fn (entity_description (w_self w)) snapshot = Ok v ->
  key (description (w_self w)) = "avg_price" ->
  convert_timestamp v <> VNone ->
  (attempt c w).1 = Ok tt ->
  exists a b d,
    snapshot !! "prices_today" = Some a /\
    snapshot !! "prices_tomorrow" = Some b /\
    snapshot !! "prices" = Some d /\
    _attr_extra_state_attributes (w_self (attempt c w).2) =
      Some {[ "prices_today" := a; "prices_tomorrow" := b; "prices" := d ]}.
Proof.
  intros Hproc Hval Hkey Hnn. destruct w as [self hass lg].
  unfold_stmt. simpl in *. rewrite Hproc. simpl. rewrite Hval. simpl.
  rewrite Hkey. simpl.
  destruct (convert_timestamp v) eqn:Hc; try congruence; simpl;
    unfold getitem;
    destruct (snapshot !! "prices_today") as [p1|]; simpl; try discriminate;
    destruct (snapshot !! "prices_tomorrow") as [p2|]; simpl; try discriminate;
    destruct (snapshot !! "prices") as [p3|]; simpl; try discriminate;
    intros _; exists p1, p2, p3; repeat split; reflexivity.
Qed.

(** The handler never raises, so neither does the guarded block. *)
Lemma try_except_returns c w : (try_except (attempt c) on_error w).1 = Ok tt.
Proof.
  unfold try_except. destruct (attempt c w) as [[[]|e] w']; reflexivity.
Qed.

(** Cancelling and scheduling touch the timers and the handle only. *)
Lemma reschedule_frame t w :
  let w' := ((cancel_pending;; schedule_next t) w).2 in
  _attr_native_value (w_self w') = _attr_native_value (w_self w) /\
  _attr_extra_state_attributes (w_self w') = _attr_extra_state_attributes (w_self w) /\
  last_update_success (w_self w') = last_update_success (w_self w).
Proof.
  destruct w as [self hass lg]. unfold_stmt. simpl.
  destruct (_unsub_update self); simpl; repeat split; reflexivity.
Qed.

(** With a snapshot, an update is the guarded block followed by the
    rescheduling. *)
Lemma after_update_stages c t w raw :
  data c = Some raw ->
  after_update c t w =
  ((cancel_pending;; schedule_next t) (try_except (attempt c) on_error w).2).2.
Proof.
  intros Hdata. unfold after_update, async_update. rewrite Hdata.
  unfold mbind at 1. unfold M_bind at 1.
  pose proof (try_except_returns c w) as Hok.
  destruct (try_except (attempt c) on_error w) as [[[]|e] w1]; simpl in *;
    [reflexivity | discriminate Hok].
Qed.

(** The stages after [attempt] leave value, attributes and flag alone. *)
Lemma after_update_with_data c t w raw :
  data c = Some raw ->
  let w1 := (try_except (attempt c) on_error w).2 in
  _attr_native_value (w_self (after_update c t w)) = _attr_native_value (w_self w1) /\
  _attr_extra_state_attributes (w_self (after_update c t w))
    = _attr_extra_state_attributes (w_self w1) /\
  last_update_success (w_self (after_update c t w)) = last_update_success (w_self w1).
Proof.
  intros Hdata w1. rewrite (after_update_stages c t w raw Hdata).
  apply reschedule_frame.
Qed.

(** After [try]/[except] the flag tells whether the [try] block completed. *)
Lemma try_except_flag c w :
  last_update_success (w_self (try_except (attempt c) on_error w).2)
    = negb (raises (attempt c w).1).
Proof.
  destruct w as [self hass lg]. unfold_stmt. simpl.
  split_attempt; reflexivity.
Qed.

Lemma try_except_completed c w :
  (attempt c w).1 = Ok tt ->
  (try_except (attempt c) on_error w).2 = (attempt c w).2.
Proof.
  unfold try_except. destruct (attempt c w) as [[[]|e] w']; simpl; congruence.
Qed.

(** Only the average-price metric writes the extra attributes. *)
Lemma try_except_other_metric c w :
  key (description (w_self w)) <> "avg_price" ->
  _attr_extra_state_attributes (w_self (try_except (attempt c) on_error w).2)
    = _attr_extra_state_attributes (w_self w).
Proof.
  intros Hkey. destruct w as [self hass lg]. simpl in Hkey.
  apply String.eqb_neq in Hkey.
  unfold_stmt. simpl. rewrite Hkey. simpl.
  split_attempt; reflexivity.
Qed.

(** C7: a successful update of the average-price metric whose value is not
    [None] sets the extra attributes to the snapshot's [prices_today],
    [prices_tomorrow] and [prices], as they are; an update of any other
    metric leaves the extra attributes as they were. *)
Theorem extra_attributes_only_for_avg_price c t w :
  (key (description (w_self w)) = "avg_price" ->
   forall snapshot v,
     is_Some (data c) ->
     processed_data c = Ok snapshot ->
     value_fn (entity_description (w_self w)) snapshot = Ok v ->
     v <> VNone ->
     available (w_self (after_update c t w)) = true ->
     exists a b d,
       snapshot !! "prices_today" = Some a /\
       snapshot !! "prices_tomorrow" = Some b /\
       snapshot !! "prices" = Some d /\
       _attr_extra_state_attributes (w_self (after_update c t w)) =
         Some {[ "prices_today" := a; "prices_tomorrow" := b; "prices" := d ]}) /\
  (key (description (w_self w)) <> "avg_price" ->
   _attr_extra_state_attributes (w_self (after_update c t w))
     = _attr_extra_state_attributes (w_self w)).
Proof.
  split.
  - intros Hkey snapshot v [raw Hdata] Hproc Hval Hnn Hav.
    destruct (after_update_with_data c t w raw Hdata) as (_ & Hattr & Hflag).
    unfold available in Hav. rewrite Hflag, try_except_flag in Hav.
    assert (Hok : (attempt c w).1 = Ok tt).
    { destruct ((attempt c w).1) as [[]|e]; [reflexivity | discriminate Hav]. }
    rewrite Hattr, (try_except_completed c w Hok).
    eapply attempt_avg_price_attributes; eauto.
    intros Hc. apply Hnn. by destruct v.
  - intros Hkey. destruct (data c) as [raw|] eqn:Hdata.
    + destruct (after_update_with_data c t w raw Hdata) as (_ & Hattr & _).
      rewrite Hattr. apply try_except_other_metric, Hkey.
    + apply (attributes_kept_without_snapshot c t w Hdata).
Qed.

Lemma extra_attributes_only_for_avg_price_witness :
  _attr_extra_state_attributes (w_self (updated_world avg_price_description)) =
    Some {[ "prices_today" := price_curve; "prices_tomorrow" := VList [];
            "prices" := price_curve ]} /\
  _attr_extra_state_attributes (w_self (updated_world current_price_description)) = None.
Proof.
  pose proof (extra_attributes_only_for_avg_price (coordinator_with full_snapshot)
                sample_now (new_world avg_price_description)) as [Havg _].
  pose proof (extra_attributes_only_for_avg_price (coordinator_with full_snapshot)
                sample_now (new_world current_price_description)) as [_ Hother].
  split.
  - destruct (Havg eq_refl full_snapshot (VInt 40)) as (a & b & d & Ha & Hb & Hd & Hattr).
    + eexists; reflexivity.
    + reflexivity.
    + vm_compute. reflexivity.
    + discriminate.
    + vm_compute. reflexivity.
    + vm_compute in Ha, Hb, Hd.
      injection Ha as <-. injection Hb as <-. injection Hd as <-.
      exact Hattr.
  - unfold updated_world. rewrite Hother; [reflexivity | discriminate].
Defined.

(** ** Failed updates *)

(** Counterexample to C1: the average-price entity holds 40 from a good
    update; the next snapshot has [avg_price = 3] and no [prices_today].
    The [KeyError] is raised after the value was stored: the entity is
    unavailable and its value is 3. *)
Lemma failure_keeps_state_fails :
  ~ failure_keeps_state (coordinator_with no_curves_snapshot) sample_now
      (updated_world avg_price_description).
Proof.
  intros H. destruct H as (_ & _ & Hv & _).
  - eexists; reflexivity.
  - vm_compute. reflexivity.
  - vm_compute in Hv. discriminate Hv.
Qed.

Example failure_after_store :
  (attempt (coordinator_with no_curves_snapshot) (updated_world avg_price_description)).1
    = Raise (KeyError "prices_today") /\
  _attr_native_value (w_self (updated_world avg_price_description)) = VInt 40 /\
  _attr_native_value
    (w_self (after_update (coordinator_with no_curves_snapshot) sample_now
               (updated_world avg_price_description))) = VInt 3.
Proof. repeat split; vm_compute; reflexivity. Qed.

(** What a guarded block that raised leaves behind. *)
Lemma try_except_failed c w :
  raises (attempt c w).1 = true ->
  let w1 := (try_except (attempt c) on_error w).2 in
  last_update_success (w_self w1) = false /\
  _attr_extra_state_attributes (w_self w1) = _attr_extra_state_attributes (w_self w) /\
  match extraction c (w_self w) with
  | Raise _ => _attr_native_value (w_self w1) = _attr_native_value (w_self w)
  | Ok v => _attr_native_value (w_self w1) = convert_timestamp v
  end.
Proof.
  destruct w as [self hass lg]. unfold extraction. unfold_stmt. simpl.
  unfold rbind.
  destruct (processed_data c) as [snapshot|e]; simpl; [| intros _; by repeat split].
  destruct (value_fn (entity_description self) snapshot) as [v|e]; simpl;
    [| intros _; by repeat split].
  destruct (String.eqb (key (description self)) "avg_price"
            && negb (is_none (convert_timestamp v))); simpl; [| discriminate].
  destruct (getitem snapshot "prices_today"); simpl; [| intros _; by repeat split].
  destruct (getitem snapshot "prices_tomorrow"); simpl; [| intros _; by repeat split].
  destruct (getitem snapshot "prices"); simpl; [discriminate | intros _; by repeat split].
Qed.

(** C1, amended: when the coordinator holds a snapshot and the [try] block
    raises, the update still returns normally, the entity becomes
    unavailable and its extra attributes are those from before.  The current
    value is the one from before when fetching the snapshot or the
    extraction function raised; when the exception came later, while the
    average-price attributes were captured, the newly extracted value is
    already stored. *)
Theorem failed_update_is_absorbed c t w :
  is_Some (data c) ->
  raises (attempt c w).1 = true ->
  (async_update c t w).1 = Ok tt /\
  available (w_self (after_update c t w)) = false /\
  _attr_extra_state_attributes (w_self (after_update c t w))
    = _attr_extra_state_attributes (w_self w) /\
  match extraction c (w_self w) with
  | Raise _ =>
      _attr_native_value (w_self (after_update c t w)) = _attr_native_value (w_self w)
  | Ok v =>
      _attr_native_value (w_self (after_update c t w)) = convert_timestamp v
  end.
Proof.
  intros [raw Hdata] Hraise.
  destruct (after_update_with_data c t w raw Hdata) as (Hv & Ha & Hf).
  destruct (try_except_failed c w Hraise) as (Hf1 & Ha1 & Hv1).
  split; [apply async_update_returns |].
  unfold available. rewrite Hf, Ha, Hv.
  repeat split; assumption.
Qed.

Lemma failed_update_is_absorbed_witness :
  _attr_native_value (w_self (updated_world percentage_description))
    = VFloat (float_of_Z 50) /\
  (async_update (coordinator_with zero_max_snapshot) sample_now
     (updated_world percentage_description)).1 = Ok tt /\
  available
    (w_self (after_update (coordinator_with zero_max_snapshot) sample_now
               (updated_world percentage_description))) = false /\
  _attr_native_value
    (w_self (after_update (coordinator_with zero_max_snapshot) sample_now
               (updated_world percentage_description))) = VFloat (float_of_Z 50).
Proof.
  split; [vm_compute; reflexivity |].
  destruct (failed_update_is_absorbed (coordinator_with zero_max_snapshot) sample_now
              (updated_world percentage_description)) as (Hok & Hav & _ & Hv).
  - eexists; reflexivity.
  - vm_compute. reflexivity.
  - split; [exact Hok | split; [exact Hav |]].
    exact Hv.
Defined.

(** ** At most one pending wake-up *)

Section ListFacts.

Context {A B : Type} (f : A -> B) (P : A -> Prop) `{!forall x, Decision (P x)}.

Lemma filter_none (l : list A) :
  (forall x, x ∈ l -> ~ P x) -> filter P l = [].
Proof.
  induction l as [|x l IH]; intros Hall; [reflexivity |].
  rewrite filter_cons_False by (apply Hall; left).
  apply IH. intros y Hy. apply Hall. by right.
Qed.

Lemma NoDup_fmap_filter (l : list A) :
  NoDup (f <$> l) -> NoDup (f <$> filter P l).
Proof.
  induction l as [|x l IH]; simpl; intros Hnd; [done |].
  apply NoDup_cons in Hnd as [Hx Hl].
  rewrite filter_cons. destruct (decide (P x)); [| by apply IH].
  rewrite fmap_cons. apply NoDup_cons. split; [| by apply IH].
  intros Hin. apply Hx.
  apply list_elem_of_fmap in Hin as (y & Hy & Hyl).
  apply list_elem_of_filter in Hyl as [_ Hyl].
  apply list_elem_of_fmap. eauto.
Qed.

(** Distinct images, all equal to one value: at most one element. *)
Lemma NoDup_fmap_constant (l : list A) (b : B) :
  NoDup (f <$> l) -> (forall x, x ∈ l -> f x = b) -> (length l <= 1)%nat.
Proof.
  destruct l as [|x [|y l]]; simpl; intros Hnd Hall; [lia | lia |].
  exfalso. apply NoDup_cons in Hnd as [Hx _]. apply Hx.
  rewrite (Hall x) by left. rewrite <- (Hall y) by (right; left). left.
Qed.

End ListFacts.

Lemma fresh_well_scheduled w : fresh w -> well_scheduled w.
Proof.
  intros (Hu & Hp & Hnd & Hlt). repeat split; [done | done |].
  intros tm Hin Hjob. exfalso.
  unfold pending, pending_for in Hp.
  eapply (filter_nil_not_elem_of _ _ tm Hp); done.
Qed.

Lemma step_job w ev : _update_job (w_self (step w ev)) = _update_job (w_self w).
Proof. destruct ev; simpl; [apply after_update_job | reflexivity]. Qed.

Lemma unsub_call_well_scheduled self hass lg h u :
  well_scheduled {| w_self := self; w_hass := hass; w_log := lg |} ->
  (u = _unsub_update self \/ (u = None /\ _unsub_update self = Some h)) ->
  well_scheduled {| w_self := set_unsub_update u self; w_hass := unsub_call hass h;
                    w_log := lg |}.
Proof.
  intros (Hnd & Hlt & Hown) Hu. unfold well_scheduled in *. simpl in *.
  split; [by apply NoDup_fmap_filter |].
  split.
  - intros tm Hin. apply list_elem_of_filter in Hin as [_ Hin]. by apply Hlt.
  - intros tm Hin Hjob. apply list_elem_of_filter in Hin as [Hne Hin].
    specialize (Hown tm Hin Hjob).
    destruct Hu as [-> | [-> Hh]]; [done |].
    rewrite Hh in Hown. by simplify_eq.
Qed.

Lemma step_well_scheduled w ev : well_scheduled w -> well_scheduled (step w ev).
Proof.
  intros Hw. destruct ev as [c t | h]; simpl.
  - pose proof (after_update_hass c t w) as Hh.
    pose proof (after_update_unsub c t w) as Hu.
    pose proof (after_update_job c t w) as Hj.
    destruct w as [self hass lg]. simpl in *.
    assert (Hmid : exists u,
      well_scheduled {| w_self := set_unsub_update u self;
                        w_hass := match _unsub_update self with
                                  | Some h => unsub_call hass h
                                  | None => hass
                                  end;
                        w_log := lg |} /\
      (forall tm, tm ∈ timers (match _unsub_update self with
                                | Some h => unsub_call hass h
                                | None => hass
                                end) ->
         job_target (t_job tm) <> job_target (_update_job self)) /\
      next_handle (match _unsub_update self with
                   | Some h => unsub_call hass h
                   | None => hass
                   end) = next_handle hass).
    { destruct (_unsub_update self) as [h|] eqn:Hs.
      - exists None. split; [apply unsub_call_well_scheduled; auto |].
        split; [| reflexivity].
        intros tm Hin Hjob. apply list_elem_of_filter in Hin as [Hne Hin].
        destruct Hw as (_ & _ & Hown). specialize (Hown tm Hin Hjob).
        simpl in Hown. rewrite Hs in Hown. by simplify_eq.
      - exists None. split.
        + destruct Hw as (Hnd & Hlt & Hown). repeat split; try done.
          intros tm Hin Hjob. specialize (Hown tm Hin Hjob). simpl in *. congruence.
        + split; [| reflexivity].
          intros tm Hin Hjob. destruct Hw as (_ & _ & Hown).
          specialize (Hown tm Hin Hjob). simpl in Hown. congruence. }
    destruct Hmid as (u & (Hnd & Hlt & _) & Hnone & Hnext). simpl in *.
    set (hass1 := match _unsub_update self with
                  | Some h => unsub_call hass h
                  | None => hass
                  end) in *.
    unfold well_scheduled. rewrite Hh, Hu, Hj. simpl. rewrite Hnext.
    split; [| split].
    + rewrite fmap_app. apply NoDup_app. split; [done |]. split; [| apply NoDup_singleton].
      intros x Hx Hx'. apply list_elem_of_fmap in Hx as (tm & -> & Hin).
      apply list_elem_of_singleton in Hx'. specialize (Hlt tm Hin). simpl in Hx'. lia.
    + intros tm Hin. apply elem_of_app in Hin as [Hin | Hin].
      * specialize (Hlt tm Hin). lia.
      * apply list_elem_of_singleton in Hin as ->. simpl. lia.
    + intros tm Hin Hjob. apply elem_of_app in Hin as [Hin | Hin].
      * by destruct (Hnone tm Hin).
      * by apply list_elem_of_singleton in Hin as ->.
  - destruct w as [self hass lg]. unfold fire. simpl.
    pose proof (unsub_call_well_scheduled self hass lg h (_unsub_update self) Hw) as H.
    destruct self; simpl in *. apply H. by left.
Qed.

Lemma run_well_scheduled evs w : well_scheduled w -> well_scheduled (run evs w).
Proof.
  revert w. induction evs as [|ev evs IH]; intros w Hw; simpl; [done |].
  apply IH, step_well_scheduled, Hw.
Qed.

Lemma well_scheduled_pending w : well_scheduled w -> (length (pending w) <= 1)%nat.
Proof.
  intros (Hnd & _ & Hown). unfold pending, pending_for.
  destruct (_unsub_update (w_self w)) as [h|] eqn:Hu.
  - apply (NoDup_fmap_constant t_handle _ h); [by apply NoDup_fmap_filter |].
    intros tm Hin. apply list_elem_of_filter in Hin as [Hjob Hin].
    specialize (Hown tm Hin Hjob). congruence.
  - rewrite filter_none; [simpl; lia |].
    intros tm Hin Hjob. specialize (Hown tm Hin Hjob). congruence.
Qed.

(** After an update the entity's one pending wake-up is the new one. *)
Lemma well_scheduled_after_update c t w :
  well_scheduled w ->
  pending (after_update c t w) =
    [ {| t_handle := next_handle (w_hass w); t_job := _update_job (w_self w);
         t_when := next_update_time t |} ] /\
  (forall old, old ∈ pending w -> old ∉ timers (w_hass (after_update c t w))).
Proof.
  intros (Hnd & Hlt & Hown). unfold pending, pending_for.
  rewrite after_update_job, after_update_hass.
  assert (Hnext : next_handle (match _unsub_update (w_self w) with
                               | Some h => unsub_call (w_hass w) h
                               | None => w_hass w
                               end) = next_handle (w_hass w))
    by (destruct (_unsub_update (w_self w)); reflexivity).
  unfold async_track_point_in_utc_time. simpl. rewrite Hnext. split.
  - rewrite filter_app, filter_cons_True, filter_nil by done.
    rewrite filter_none; [reflexivity |].
    intros tm Hin Hjob.
    destruct (_unsub_update (w_self w)) as [h|] eqn:Hu.
    + apply list_elem_of_filter in Hin as [Hne Hin].
      specialize (Hown tm Hin Hjob). by simplify_eq.
    + specialize (Hown tm Hin Hjob). congruence.
  - intros old Hold Hin. apply list_elem_of_filter in Hold as [Hjob Hold].
    specialize (Hown old Hold Hjob). rewrite Hown in Hin.
    apply elem_of_app in Hin as [Hin | Hin].
    + apply list_elem_of_filter in Hin as [Hne _]. by apply Hne.
    + apply list_elem_of_singleton in Hin. specialize (Hlt old Hold).
      rewrite Hin in Hlt. simpl in Hlt. lia.
Qed.

(** C2: starting from a freshly constructed entity, after any sequence of
    updates and firings at most one wake-up of the entity is pending; each
    update removes the wake-up that was pending, if any, and leaves exactly
    one pending, the one it installed; two updates in direct succession
    leave exactly one. *)
Theorem at_most_one_pending_wakeup w evs :
  fresh w ->
  (length (pending (run evs w)) <= 1)%nat /\
  (forall c t,
     pending (after_update c t (run evs w)) =
       [ {| t_handle := next_handle (w_hass (run evs w));
            t_job := _update_job (w_self (run evs w));
            t_when := next_update_time t |} ] /\
     (forall old, old ∈ pending (run evs w) ->
        old ∉ timers (w_hass (after_update c t (run evs w))))) /\
  (forall c1 t1 c2 t2,
     length (pending (after_update c2 t2 (after_update c1 t1 (run evs w)))) = 1%nat).
Proof.
  intros Hfresh.
  pose proof (run_well_scheduled evs w (fresh_well_scheduled w Hfresh)) as Hw.
  split; [by apply well_scheduled_pending |].
  split; [intros c t; by apply well_scheduled_after_update |].
  intros c1 t1 c2 t2.
  pose proof (step_well_scheduled _ (EvUpdate c1 t1) Hw) as Hw1. simpl in Hw1.
  destruct (well_scheduled_after_update c2 t2 _ Hw1) as [-> _]. reflexivity.
Qed.

Lemma at_most_one_pending_wakeup_witness :
  fresh (new_world current_price_description) /\
  length (pending
    (after_update coordinator_without_data sample_now
       (after_update (coordinator_with zero_max_snapshot) sample_now
          (run [EvUpdate (coordinator_with full_snapshot) sample_now; EvFire 0]
               (new_world current_price_description))))) = 1%nat.
Proof.
  assert (Hfresh : fresh (new_world current_price_description)).
  { repeat split; [apply NoDup_nil_2 | intros tm Hin; inversion Hin]. }
  split; [exact Hfresh |].
  apply (at_most_one_pending_wakeup (new_world current_price_description)
           [EvUpdate (coordinator_with full_snapshot) sample_now; EvFire 0] Hfresh).
Defined.

(** ** The percentage extraction *)

Example percentage_of_max_50_100 :
  percentage_of_max_fn {[ "current_price" := VInt 50; "max_price" := VInt 100 ]}
    = Ok (VFloat (float_of_Z 50)).
Proof. vm_compute. reflexivity. Qed.

Example percentage_of_max_1_3 :
  percentage_of_max_fn {[ "current_price" := VInt 1; "max_price" := VInt 3 ]}
    = Ok (VFloat (S754_finite false 4686558362232422 (-47))).
Proof. vm_compute. reflexivity. Qed.

(** Counterexample to C6: with [max_price = 0] and [current_price = None]
    the division raises a [TypeError], not a division error. *)
Lemma zero_max_raises_division_error_fails :
  ~ zero_max_raises_division_error null_current_zero_max_snapshot.
Proof.
  intros H. specialize (H (VInt 0) eq_refl eq_refl).
  vm_compute in H. discriminate H.
Qed.

Lemma zero_is_zero_double : PyLong_AsDouble 0 = Ok (S754_zero false).
Proof. reflexivity. Qed.

(** Dividing by a zero raises, whatever the dividend. *)
Lemma py_truediv_zero c m :
  equals_zero m = true ->
  raises (py_truediv c m) = true /\
  (forall x, as_number c = Some x -> raises (to_double x) = false ->
     py_truediv c m = Raise ZeroDivisionError).
Proof.
  unfold equals_zero, py_truediv. intros Hz.
  destruct (as_number m) as [[n|f]|]; [| | discriminate].
  - apply Z.eqb_eq in Hz as ->.
    destruct (as_number c) as [[a|a]|]; simpl.
    + split; [reflexivity |]. intros x [= <-] _. reflexivity.
    + split; [reflexivity |]. intros x [= <-] _. reflexivity.
    + split; [reflexivity |]. intros x [=].
  - destruct f; try discriminate Hz.
    destruct (as_number c) as [[a|a]|]; simpl.
    + split.
      * destruct (PyLong_AsDouble a); reflexivity.
      * intros x [= <-]. simpl. destruct (PyLong_AsDouble a); [reflexivity | discriminate].
    + split; [reflexivity |]. intros x [= <-] _. reflexivity.
    + split; [reflexivity |]. intros x [=].
Qed.

Lemma float_same_eq f g : float_same f g = true -> f = g.
Proof.
  destruct f as [s|s| |s m e], g as [s'|s'| |s' m' e']; simpl; try discriminate.
  - intros H. apply Bool.eqb_prop in H. by subst.
  - intros H. apply Bool.eqb_prop in H. by subst.
  - reflexivity.
  - intros H. apply andb_prop in H as [H He]. apply andb_prop in H as [Hs Hm].
    apply Bool.eqb_prop in Hs. apply Pos.eqb_eq in Hm. apply Z.eqb_eq in He.
    by subst.
Qed.

(** What the check of one pair says. *)
Lemma percentage_checked_elim c m :
  percentage_checked c m = true ->
  exists n,
    near_percentage c m n /\
    (q ← py_truediv (VInt c) (VInt m); p ← py_mul q (VInt 100); py_round p 1)
      = Ok (VFloat (one_decimal (xorb (c <? 0) (m <? 0)) n)).
Proof.
  unfold percentage_checked.
  destruct (q ← py_truediv (VInt c) (VInt m); p ← py_mul q (VInt 100); py_round p 1)
    as [[| | |f| | | |]|e]; try discriminate.
  cbv zeta. cbn [existsb]. rewrite orb_false_r. intros Hchk.
  apply orb_prop in Hchk as [H | H];
    apply andb_prop in H as [H Hf]; apply andb_prop in H as [Hn Hd];
    apply Z.leb_le in Hn, Hd; apply float_same_eq in Hf; subst f;
    eexists; (split; [split; [exact Hn | exact Hd] | reflexivity]).
Qed.

(** What the check of a range says about each of its pairs. *)
Lemma all_checked_elim R c m :
  all_checked R = true ->
  - R <= c <= R -> - R <= m <= R -> m <> 0 ->
  percentage_checked c m = true.
Proof.
  unfold all_checked. intros Hall Hc Hm Hm0.
  rewrite forallb_forall in Hall.
  assert (Hcin : c ∈ seqZ (- R) (2 * R + 1)) by (apply elem_of_seqZ; lia).
  assert (Hmin : m ∈ seqZ (- R) (2 * R + 1)) by (apply elem_of_seqZ; lia).
  apply list_elem_of_In in Hcin, Hmin.
  specialize (Hall c Hcin). rewrite forallb_forall in Hall.
  specialize (Hall m Hmin). apply orb_prop in Hall as [Hz | Hchk]; [| exact Hchk].
  apply Z.eqb_eq in Hz. contradiction.
Qed.

Lemma all_checked_50 : all_checked 50 = true.
Proof. vm_compute. reflexivity. Qed.

(** The extraction looks at the two price fields only. *)
Lemma percentage_of_max_fn_fields data c m :
  data !! "current_price" = Some c ->
  data !! "max_price" = Some m ->
  percentage_of_max_fn data =
    (q ← py_truediv c m; p ← py_mul q (VInt 100); py_round p 1).
Proof. unfold percentage_of_max_fn, getitem. intros -> ->. reflexivity. Qed.

Lemma percentage_of_small_ints c m :
  -50 <= c <= 50 -> -50 <= m <= 50 -> m <> 0 ->
  exists n,
    near_percentage c m n /\
    (q ← py_truediv (VInt c) (VInt m); p ← py_mul q (VInt 100); py_round p 1)
      = Ok (VFloat (one_decimal (xorb (c <? 0) (m <? 0)) n)).
Proof.
  intros Hc Hm Hm0. apply percentage_checked_elim.
  apply (all_checked_elim 50 c m all_checked_50); [lia | lia | exact Hm0].
Qed.

(** C6, amended: on a snapshot that holds both operands the extraction is
    [round(current_price / max_price * 100, 1)]: for two floats with a
    nonzero divisor the rounded binary64 product of the binary64 quotient;
    for two [int] prices up to 50 in magnitude the one-decimal float within
    0.05 of the exact percentage; [{current_price: 50, max_price: 100}]
    gives [50.0] (the float [50 * 2^47 * 2^-47]) and [{1, 3}] gives [33.3].
    With [max_price] zero it always raises and never returns a value: a
    division error when [current_price] is a number that fits a float.  A
    [current_price] that is null or not a number gives a type error, an
    absent one a key error. *)
Theorem percentage_of_max_extraction :
  (forall data c m,
     data !! "current_price" = Some c ->
     data !! "max_price" = Some m ->
     percentage_of_max_fn data =
       (q ← py_truediv c m; p ← py_mul q (VInt 100); py_round p 1)) /\
  (forall data a b,
     data !! "current_price" = Some (VFloat a) ->
     data !! "max_price" = Some (VFloat b) ->
     float_is_zero b = false ->
     percentage_of_max_fn data =
       VFloat <$> float_round (float_mul (SFdiv prec emax a b) (float_of_Z 100)) 1) /\
  (forall data c m,
     data !! "current_price" = Some (VInt c) ->
     data !! "max_price" = Some (VInt m) ->
     -50 <= c <= 50 -> -50 <= m <= 50 -> m <> 0 ->
     exists n,
       near_percentage c m n /\
       percentage_of_max_fn data
         = Ok (VFloat (one_decimal (xorb (c <? 0) (m <? 0)) n))) /\
  percentage_of_max_fn {[ "current_price" := VInt 50; "max_price" := VInt 100 ]}
    = Ok (VFloat (S754_finite false (Z.to_pos (50 * 2 ^ 47)) (-47))) /\
  percentage_of_max_fn {[ "current_price" := VInt 1; "max_price" := VInt 3 ]}
    = Ok (VFloat (one_decimal false 333)) /\
  (forall data m,
     data !! "max_price" = Some m ->
     equals_zero m = true ->
     raises (percentage_of_max_fn data) = true /\
     (forall c x,
        data !! "current_price" = Some c ->
        as_number c = Some x ->
        raises (to_double x) = false ->
        percentage_of_max_fn data = Raise ZeroDivisionError)) /\
  (forall data c m,
     data !! "current_price" = Some c ->
     data !! "max_price" = Some m ->
     as_number c = None ->
     percentage_of_max_fn data = Raise TypeError) /\
  (forall data,
     data !! "current_price" = None ->
     percentage_of_max_fn data = Raise (KeyError "current_price")).
Proof.
  split; [exact percentage_of_max_fn_fields |].
  split.
  { intros data a b Ha Hb Hnz.
    rewrite (percentage_of_max_fn_fields data _ _ Ha Hb).
    simpl. unfold py_truediv, float_div. simpl. rewrite Hnz. reflexivity. }
  split.
  { intros data c m Hc Hm Hcr Hmr Hm0.
    rewrite (percentage_of_max_fn_fields data _ _ Hc Hm).
    by apply percentage_of_small_ints. }
  split; [vm_compute; reflexivity |].
  split; [vm_compute; reflexivity |].
  split.
  { intros data m Hm Hz. unfold percentage_of_max_fn, getitem. split.
    - destruct (data !! "current_price") as [c|]; [| reflexivity].
      rewrite Hm. simpl.
      destruct (py_truediv_zero c m Hz) as [Hr _].
      destruct (py_truediv c m); [discriminate Hr | reflexivity].
    - intros c x -> Hc Hx. rewrite Hm. simpl.
      destruct (py_truediv_zero c m Hz) as [_ Hd].
      rewrite (Hd x Hc Hx). reflexivity. }
  split.
  { intros data c m Hc Hm Hnum.
    rewrite (percentage_of_max_fn_fields data _ _ Hc Hm).
    unfold py_truediv. rewrite Hnum. reflexivity. }
  intros data Hc. unfold percentage_of_max_fn, getitem. rewrite Hc. reflexivity.
Qed.

Lemma percentage_of_max_extraction_witness :
  percentage_of_max_fn zero_max_snapshot = Raise ZeroDivisionError /\
  percentage_of_max_fn null_current_zero_max_snapshot = Raise TypeError /\
  percentage_of_max_fn {[ "max_price" := VInt 0 ]} = Raise (KeyError "current_price") /\
  (exists n,
     near_percentage 2 (-7) n /\
     percentage_of_max_fn {[ "current_price" := VInt 2; "max_price" := VInt (-7) ]}
       = Ok (VFloat (one_decimal true n))).
Proof.
  destruct percentage_of_max_extraction
    as (_ & _ & Hsmall & _ & _ & Hz & Htype & Hkey).
  split; [| split; [| split]].
  - destruct (Hz zero_max_snapshot (VInt 0) eq_refl eq_refl) as [_ Hd].
    apply (Hd (VInt 50) (NInt 50)); reflexivity.
  - apply (Htype null_current_zero_max_snapshot VNone (VInt 0)); reflexivity.
  - apply Hkey. reflexivity.
  - apply (Hsmall {[ "current_price" := VInt 2; "max_price" := VInt (-7) ]} 2 (-7));
      [reflexivity | reflexivity | lia | lia | lia].
Defined.

(** ** Units of the catalog *)

Lemma prefix_append (c s : string) : String.prefix c (c +:+ s) = true.
Proof.
  induction c as [|a c IH]; simpl; [by destruct s |].
  destruct (ascii_dec a a); [exact IH | congruence].
Qed.

Lemma str_contains_append (c s : string) : str_contains c (c +:+ s) = true.
Proof.
  destruct c; simpl.
  - by destruct s.
  - destruct (ascii_dec a a); [| congruence]. by rewrite prefix_append.
Qed.

(** Counterexample to C8: for the currency [EUR] the percentage entry has
    the unit [%], which does not contain [EUR]. *)
Lemma every_unit_contains_currency_fails : ~ every_unit_contains_currency "EUR".
Proof.
  intros H.
  destruct (H percentage_description) as (u & Hu & Hc).
  - unfold sensor_descriptions, percentage_description.
    do 5 right. left.
  - simpl in Hu. injection Hu as <-. vm_compute in Hc. discriminate Hc.
Qed.

(** C8, amended: for every currency code, each of the five price metrics of
    [sensor_descriptions(currency)] has the unit [currency/kWh], which
    contains the currency code as it is; the percentage metric has the unit
    [%] and the two timestamp metrics have no unit. *)
Theorem price_units_contain_currency currency d :
  d ∈ sensor_descriptions currency ->
  (key d ∈ price_keys /\
   native_unit_of_measurement d = Some (currency +:+ "/kWh") /\
   str_contains currency (currency +:+ "/kWh") = true) \/
  (key d = "percentage_of_max" /\ native_unit_of_measurement d = Some "%") \/
  (key d ∈ ["highest_price_time_today"; "lowest_price_time_today"] /\
   native_unit_of_measurement d = None).
Proof.
  intros Hd. unfold sensor_descriptions in Hd.
  repeat (apply elem_of_cons in Hd as [-> | Hd]); simpl.
  1-5: left; split; [unfold price_keys; set_solver |];
       split; [reflexivity | apply str_contains_append].
  - right; left. split; reflexivity.
  - right; right. split; [set_solver | reflexivity].
  - right; right. split; [set_solver | reflexivity].
  - by apply elem_of_nil in Hd.
Qed.

Lemma price_units_contain_currency_witness :
  native_unit_of_measurement current_price_description = Some "EUR/kWh" /\
  str_contains "EUR" "EUR/kWh" = true.
Proof.
  destruct (price_units_contain_currency "EUR" current_price_description)
    as [(_ & Hu & Hc) | [(Hk & _) | (_ & Hn)]].
  - unfold sensor_descriptions, current_price_description. left.
  - split; [exact Hu | exact Hc].
  - discriminate Hk.
  - discriminate Hn.
Defined.

(** ** Entity ids and unique ids *)

Lemma append_inv_head (p a b : string) : p +:+ a = p +:+ b -> a = b.
Proof. induction p as [|ch p IH]; simpl; [done |]. intros [= H]. by apply IH. Qed.

Lemma append_empty_r (s : string) : s +:+ "" = s.
Proof.
  induction s as [|ch s IH]; [done |].
  change (String ch (s +:+ "") = String ch s). by rewrite IH.
Qed.

(** Two ways of cutting one string: one of the heads extends the other. *)
Lemma append_eq_append (a b x y : string) :
  a +:+ x = b +:+ y ->
  exists c, (a = b +:+ c /\ y = c +:+ x) \/ (b = a +:+ c /\ x = c +:+ y).
Proof.
  revert b. induction a as [|ch a IH]; intros b H; simpl in *.
  - exists b. right. by split.
  - destruct b as [|ch' b]; simpl in *.
    + exists (String ch a). left. by split.
    + injection H as -> H. destruct (IH b H) as (c & [[-> ->] | [-> ->]]).
      * exists c. left. by split.
      * exists c. right. by split.
Qed.

Lemma append_cons (ch : ascii) (s t : string) :
  String ch s +:+ t = String ch (s +:+ t).
Proof. reflexivity. Qed.

Lemma append_empty_l (t : string) : "" +:+ t = t.
Proof. reflexivity. Qed.

Ltac norm_append :=
  repeat (rewrite append_cons in * || rewrite append_empty_l in * ).

Lemma str_ends_with_append (c t : string) : str_ends_with (c +:+ t) t = true.
Proof.
  induction c as [|ch c IH]; norm_append.
  - destruct t; simpl; [reflexivity |]. rewrite Ascii.eqb_refl, String.eqb_refl. reflexivity.
  - simpl. rewrite IH. apply orb_true_r.
Qed.

Lemma underscore_free_append (c x : string) :
  underscore_free (c +:+ String "_" x) = false.
Proof.
  induction c as [|ch c IH]; norm_append; simpl; [reflexivity |].
  rewrite IH. apply andb_false_r.
Qed.

(** With underscore-free tails, the head before the last underscore is
    determined. *)
Lemma underscore_split (a b x y : string) :
  underscore_free x = true -> underscore_free y = true ->
  a +:+ String "_" x = b +:+ String "_" y -> a = b.
Proof.
  intros Hx Hy H.
  destruct (append_eq_append _ _ _ _ H) as (c & [[-> Hc] | [-> Hc]]).
  - destruct c as [|ch c]; norm_append; [by rewrite append_empty_r |].
    injection Hc as Hch Htl. subst y. by rewrite underscore_free_append in Hy.
  - destruct c as [|ch c]; norm_append; [by rewrite append_empty_r |].
    injection Hc as Hch Htl. subst x. by rewrite underscore_free_append in Hx.
Qed.

(** With tails of which none ends in an underscore followed by the other,
    the head is determined as well. *)
Lemma suffix_split (a b x y : string) :
  str_ends_with x (String "_" y) = false -> str_ends_with y (String "_" x) = false ->
  a +:+ String "_" x = b +:+ String "_" y -> a = b.
Proof.
  intros Hx Hy H.
  destruct (append_eq_append _ _ _ _ H) as (c & [[-> Hc] | [-> Hc]]).
  - destruct c as [|ch c]; norm_append; [by rewrite append_empty_r |].
    injection Hc as Hch Htl. subst y. by rewrite str_ends_with_append in Hy.
  - destruct c as [|ch c]; norm_append; [by rewrite append_empty_r |].
    injection Hc as Hch Htl. subst x. by rewrite str_ends_with_append in Hx.
Qed.

Lemma catalog_key currency d :
  d ∈ sensor_descriptions currency -> key d ∈ catalog_keys.
Proof.
  intros Hd. unfold sensor_descriptions in Hd.
  repeat (apply elem_of_cons in Hd as [-> | Hd]); simpl;
    try (by apply elem_of_nil in Hd);
    unfold catalog_keys; simpl; set_solver.
Qed.

Lemma catalog_name currency d :
  d ∈ sensor_descriptions currency -> name d ∈ catalog_names.
Proof.
  intros Hd. unfold sensor_descriptions in Hd.
  repeat (apply elem_of_cons in Hd as [-> | Hd]); simpl;
    try (by apply elem_of_nil in Hd);
    unfold catalog_names; simpl; set_solver.
Qed.

Lemma catalog_names_underscore_free x :
  x ∈ catalog_names -> underscore_free x = true.
Proof.
  unfold catalog_names. simpl. intros Hx.
  repeat (apply elem_of_cons in Hx as [-> | Hx]); try reflexivity.
  by apply elem_of_nil in Hx.
Qed.

Lemma keys_separable_holds : keys_separable = true.
Proof. vm_compute. reflexivity. Qed.

Lemma catalog_keys_separable k k' :
  k ∈ catalog_keys -> k' ∈ catalog_keys -> str_ends_with k (String "_" k') = false.
Proof.
  intros Hk Hk'. pose proof keys_separable_holds as H. unfold keys_separable in H.
  rewrite forallb_forall in H. apply list_elem_of_In in Hk, Hk'.
  specialize (H k Hk). rewrite forallb_forall in H. specialize (H k' Hk').
  by apply negb_true_iff in H.
Qed.

Section Ids.

Variable DOMAIN : string.

(** C9: the entity id is a function of the configured name and the
    metric's display name, the unique id a function of the configured name
    and the metric's key; for two different configured names no metric of
    the catalog under the one has the entity id or the unique id of a metric
    under the other, and the same holds between no name at all and any
    non-empty name. *)
Theorem ids_deterministic_and_disjoint :
  (forall nm d d',
     name d = name d' ->
     entity_id (EntsoeSensor_init DOMAIN d nm) = entity_id (EntsoeSensor_init DOMAIN d' nm)) /\
  (forall nm d d',
     key d = key d' ->
     _attr_unique_id (EntsoeSensor_init DOMAIN d nm)
       = _attr_unique_id (EntsoeSensor_init DOMAIN d' nm)) /\
  (forall (n1 n2 : string) c1 c2 d1 d2,
     n1 <> n2 ->
     d1 ∈ sensor_descriptions c1 ->
     d2 ∈ sensor_descriptions c2 ->
     entity_id (EntsoeSensor_init DOMAIN d1 (Some n1))
       <> entity_id (EntsoeSensor_init DOMAIN d2 (Some n2)) /\
     _attr_unique_id (EntsoeSensor_init DOMAIN d1 (Some n1))
       <> _attr_unique_id (EntsoeSensor_init DOMAIN d2 (Some n2))) /\
  (forall (n2 : string) c1 c2 d1 d2,
     n2 <> "" ->
     d1 ∈ sensor_descriptions c1 ->
     d2 ∈ sensor_descriptions c2 ->
     entity_id (EntsoeSensor_init DOMAIN d1 None)
       <> entity_id (EntsoeSensor_init DOMAIN d2 (Some n2)) /\
     _attr_unique_id (EntsoeSensor_init DOMAIN d1 None)
       <> _attr_unique_id (EntsoeSensor_init DOMAIN d2 (Some n2))).
Proof.
  assert (Hdisjoint : forall (n1 n2 : string) c1 c2 d1 d2,
     n1 <> n2 ->
     d1 ∈ sensor_descriptions c1 ->
     d2 ∈ sensor_descriptions c2 ->
     entity_id (EntsoeSensor_init DOMAIN d1 (Some n1))
       <> entity_id (EntsoeSensor_init DOMAIN d2 (Some n2)) /\
     _attr_unique_id (EntsoeSensor_init DOMAIN d1 (Some n1))
       <> _attr_unique_id (EntsoeSensor_init DOMAIN d2 (Some n2)));
  [| split; [| split; [| split; [exact Hdisjoint |]]]].
  4: { intros n2 c1 c2 d1 d2 Hne Hd1 Hd2.
       change (EntsoeSensor_init DOMAIN d1 None)
         with (EntsoeSensor_init DOMAIN d1 (Some "")).
       apply (Hdisjoint "" n2 c1 c2); [congruence | done | done]. }
  - intros n1 n2 c1 c2 d1 d2 Hne Hd1 Hd2.
    pose proof (catalog_names_underscore_free _ (catalog_name _ _ Hd1)) as Hu1.
    pose proof (catalog_names_underscore_free _ (catalog_name _ _ Hd2)) as Hu2.
    pose proof (catalog_key _ _ Hd1) as Hk1.
    pose proof (catalog_key _ _ Hd2) as Hk2.
    pose proof (catalog_keys_separable _ _ Hk1 Hk2) as Hs12.
    pose proof (catalog_keys_separable _ _ Hk2 Hk1) as Hs21.
    unfold EntsoeSensor_init.
    destruct n1 as [|a1 n1], n2 as [|a2 n2]; simpl; [done | | |].
    + split; intros H; norm_append.
      * apply append_inv_head in H. injection H as H.
        rewrite H in Hu1. simpl in Hu1.
        rewrite underscore_free_append in Hu1.
        by rewrite andb_false_r in Hu1.
      * injection H as H.
        rewrite <- append_cons in H.
        rewrite H, str_ends_with_append in Hs12. discriminate Hs12.
    + split; intros H; norm_append.
      * apply append_inv_head in H. injection H as H.
        rewrite <- H in Hu2. simpl in Hu2.
        rewrite underscore_free_append in Hu2.
        by rewrite andb_false_r in Hu2.
      * injection H as H.
        rewrite <- append_cons in H.
        rewrite <- H, str_ends_with_append in Hs21. discriminate Hs21.
    + split; intros H; norm_append.
      * apply append_inv_head in H.
        assert (H' : String a1 n1 +:+ String "_" (name d1)
                     = String a2 n2 +:+ String "_" (name d2))
          by (norm_append; congruence).
        apply Hne. exact (underscore_split _ _ _ _ Hu1 Hu2 H').
      * assert (H' : String a1 n1 +:+ String "_" (key d1)
                     = String a2 n2 +:+ String "_" (key d2))
          by (norm_append; congruence).
        apply Hne. exact (suffix_split _ _ _ _ Hs12 Hs21 H').
  - intros nm d d' Hn. unfold EntsoeSensor_init. simpl.
    destruct (has_name nm); simpl; by rewrite Hn.
  - intros nm d d' Hk. unfold EntsoeSensor_init. simpl.
    destruct (has_name nm); simpl; by rewrite Hk.
Qed.

End Ids.

Lemma ids_deterministic_and_disjoint_witness :
  entity_id (EntsoeSensor_init "entsoe" current_price_description (Some "home"))
    <> entity_id (EntsoeSensor_init "entsoe" avg_price_description (Some "home_avg")) /\
  _attr_unique_id (EntsoeSensor_init "entsoe" current_price_description (Some "home"))
    <> _attr_unique_id (EntsoeSensor_init "entsoe" avg_price_description (Some "home_avg")).
Proof.
  apply (ids_deterministic_and_disjoint "entsoe") with (c1 := "EUR") (c2 := "EUR").
  - discriminate.
  - unfold sensor_descriptions, current_price_description. left.
  - unfold sensor_descriptions, avg_price_description. do 4 right. left.
Defined.

(** A missing name and an empty name are the same configuration: both give
    the ids without a name part. *)
Lemma unnamed_ids DOMAIN d :
  entity_id (EntsoeSensor_init DOMAIN d None) = DOMAIN +:+ "." +:+ name d /\
  entity_id (EntsoeSensor_init DOMAIN d (Some "")) = DOMAIN +:+ "." +:+ name d /\
  _attr_unique_id (EntsoeSensor_init DOMAIN d None) = "entsoe." +:+ key d /\
  _attr_unique_id (EntsoeSensor_init DOMAIN d (Some "")) = "entsoe." +:+ key d.
Proof. repeat split; reflexivity. Qed.

(** ** Set-up *)

Lemma catalog_keys_NoDup : NoDup catalog_keys.
Proof. apply (bool_decide_unpack _). vm_compute. reflexivity. Qed.

Lemma catalog_names_NoDup : NoDup catalog_names.
Proof. apply (bool_decide_unpack _). vm_compute. reflexivity. Qed.

Lemma sensor_descriptions_keys currency :
  key <$> sensor_descriptions currency = catalog_keys.
Proof. reflexivity. Qed.

Lemma sensor_descriptions_names currency :
  name <$> sensor_descriptions currency = catalog_names.
Proof. reflexivity. Qed.

(** A list whose images under [g] are distinct has distinct images under
    any [f] that determines [g]. *)
Lemma NoDup_fmap_through {A B C} (f : A -> B) (g : A -> C) (l : list A) :
  (forall x y, f x = f y -> g x = g y) ->
  NoDup (g <$> l) -> NoDup (f <$> l).
Proof.
  intros Hfg. induction l as [|x l IH]; simpl; intros Hnd; [constructor |].
  apply NoDup_cons in Hnd as [Hx Hl]. apply NoDup_cons. split; [| by apply IH].
  intros Hin. apply Hx.
  apply list_elem_of_fmap in Hin as (y & Hy & Hyl).
  apply list_elem_of_fmap. exists y. split; [by apply Hfg | done].
Qed.

Section SetupFacts.

Variables DOMAIN CONF_COORDINATOR CONF_ENTITY_NAME CONF_CURRENCY : string.
Variable DEFAULT_CURRENCY : string.

Lemma unique_id_key nm d d' :
  _attr_unique_id (EntsoeSensor_init DOMAIN d nm)
    = _attr_unique_id (EntsoeSensor_init DOMAIN d' nm) ->
  key d = key d'.
Proof.
  unfold EntsoeSensor_init. destruct (has_name nm); simpl; intros H; norm_append.
  - assert (H' : fstr nm +:+ String "_" (key d) = fstr nm +:+ String "_" (key d'))
      by congruence.
    apply append_inv_head in H'. congruence.
  - congruence.
Qed.

Lemma entity_id_name nm d d' :
  entity_id (EntsoeSensor_init DOMAIN d nm)
    = entity_id (EntsoeSensor_init DOMAIN d' nm) ->
  name d = name d'.
Proof.
  unfold EntsoeSensor_init. destruct (has_name nm); simpl; intros H; norm_append.
  - apply append_inv_head in H.
    assert (H' : fstr nm +:+ String "_" (name d) = fstr nm +:+ String "_" (name d'))
      by congruence.
    apply append_inv_head in H'. congruence.
  - apply append_inv_head in H. congruence.
Qed.

Lemma create_entities_named descriptions config_entry entities nm :
  options config_entry !! CONF_ENTITY_NAME = Some nm ->
  create_entities DOMAIN CONF_ENTITY_NAME descriptions config_entry entities
    = Ok (entities ++ ((fun d => EntsoeSensor_init DOMAIN d nm) <$> descriptions))%list.
Proof.
  intros Hnm. revert entities.
  induction descriptions as [|d ds IH]; intros entities; simpl.
  - by rewrite app_nil_r.
  - unfold dict_getitem. rewrite Hnm. simpl. rewrite IH, <- app_assoc. reflexivity.
Qed.

(** X1: when [hass.data] holds the coordinator of the entry and the name
    option is set, the set-up makes exactly one [async_add_entities] call,
    with [update_before_add] true and one sensor per catalog entry, in
    catalog order, for the configured currency (the default one when the
    option is absent), all under the configured name; their unique ids are
    pairwise distinct and so are their entity ids. *)
Theorem setup_registers_distinct_entities hass_data config_entry calls
    by_domain by_entry coordinator nm :
  hass_data !! DOMAIN = Some by_domain ->
  by_domain !! entry_id config_entry = Some by_entry ->
  by_entry !! CONF_COORDINATOR = Some coordinator ->
  options config_entry !! CONF_ENTITY_NAME = Some nm ->
  exists entities,
    async_setup_entry DOMAIN CONF_COORDINATOR CONF_ENTITY_NAME CONF_CURRENCY
      DEFAULT_CURRENCY hass_data config_entry calls
    = (Ok tt, (calls ++ [ {| new_entities := entities; update_before_add := true |} ])%list) /\
    entities =
      (fun d => EntsoeSensor_init DOMAIN d nm) <$>
        sensor_descriptions
          (match options config_entry !! CONF_CURRENCY with
           | Some c => fstr c
           | None => DEFAULT_CURRENCY
           end) /\
    length entities = 8%nat /\
    NoDup (_attr_unique_id <$> entities) /\
    NoDup (entity_id <$> entities).
Proof.
  intros Hd He Hc Hnm. eexists. split; [| split; [reflexivity |]].
  - unfold async_setup_entry.
    replace (fstr (dict_get (options config_entry) CONF_CURRENCY (Some DEFAULT_CURRENCY)))
      with (match options config_entry !! CONF_CURRENCY with
            | Some c => fstr c
            | None => DEFAULT_CURRENCY
            end)
      by (unfold dict_get; by destruct (options config_entry !! CONF_CURRENCY)).
    generalize (sensor_descriptions
                  (match options config_entry !! CONF_CURRENCY with
                   | Some c => fstr c
                   | None => DEFAULT_CURRENCY
                   end)).
    intros ds. unfold dict_getitem. rewrite Hd. simpl.
    rewrite He. simpl. rewrite Hc. simpl.
    rewrite (create_entities_named _ _ _ nm Hnm). reflexivity.
  - split; [reflexivity |]. split.
    + rewrite <- list_fmap_compose.
      apply (NoDup_fmap_through _ key); [apply unique_id_key |].
      rewrite sensor_descriptions_keys. apply catalog_keys_NoDup.
    + rewrite <- list_fmap_compose.
      apply (NoDup_fmap_through _ name); [apply entity_id_name |].
      rewrite sensor_descriptions_names. apply catalog_names_NoDup.
Qed.

(** X2: when the name option is absent the set-up raises
    [KeyError(CONF_ENTITY_NAME)] at the first sensor, whether or not a
    currency is configured, and the host receives no call. *)
Theorem setup_without_name_raises hass_data config_entry calls
    by_domain by_entry coordinator :
  hass_data !! DOMAIN = Some by_domain ->
  by_domain !! entry_id config_entry = Some by_entry ->
  by_entry !! CONF_COORDINATOR = Some coordinator ->
  options config_entry !! CONF_ENTITY_NAME = None ->
  async_setup_entry DOMAIN CONF_COORDINATOR CONF_ENTITY_NAME CONF_CURRENCY
    DEFAULT_CURRENCY hass_data config_entry calls
  = (Raise (KeyError CONF_ENTITY_NAME), calls).
Proof.
  intros Hd He Hc Hnm.
  unfold async_setup_entry, dict_getitem. rewrite Hd. simpl.
  rewrite He. simpl. rewrite Hc. simpl.
  unfold dict_getitem. rewrite Hnm. reflexivity.
Qed.

(** The ids and the display name of the sensors do not depend on the
    currency: two catalogs for different currencies give, entry by entry,
    the same entity id, unique id and name. *)
Theorem ids_independent_of_currency nm c1 c2 :
  (fun d => let s := EntsoeSensor_init DOMAIN d nm in
            (entity_id s, _attr_unique_id s, _attr_name s)) <$> sensor_descriptions c1
  = (fun d => let s := EntsoeSensor_init DOMAIN d nm in
            (entity_id s, _attr_unique_id s, _attr_name s)) <$> sensor_descriptions c2.
Proof. reflexivity. Qed.

End SetupFacts.

Lemma setup_registers_distinct_entities_witness :
  exists entities,
    async_setup_entry "entsoe" "coordinator" "name" "currency" "EUR"
      sample_hass_data sample_entry_without_currency []
    = (Ok tt, [ {| new_entities := entities; update_before_add := true |} ]) /\
    NoDup (_attr_unique_id <$> entities).
Proof.
  destruct (setup_registers_distinct_entities "entsoe" "coordinator" "name" "currency"
              "EUR" sample_hass_data sample_entry_without_currency []
              {[ "entry1" := {[ "coordinator" := coordinator_without_data ]} ]}
              {[ "coordinator" := coordinator_without_data ]}
              coordinator_without_data (Some "home"))
    as (entities & Hcall & _ & _ & Hu & _).
  - reflexivity.
  - reflexivity.
  - reflexivity.
  - reflexivity.
  - exists entities. split; [exact Hcall | exact Hu].
Defined.

Lemma setup_without_name_raises_witness :
  async_setup_entry "entsoe" "coordinator" "name" "currency" "EUR"
    sample_hass_data sample_entry_without_name []
  = (Raise (KeyError "name"), []).
Proof.
  apply (setup_without_name_raises "entsoe" "coordinator" "name" "currency" "EUR"
           sample_hass_data sample_entry_without_name []
           {[ "entry1" := {[ "coordinator" := coordinator_without_data ]} ]}
           {[ "coordinator" := coordinator_without_data ]}
           coordinator_without_data); reflexivity.
Defined.

Section SetupOutcome.

Variables DOMAIN CONF_COORDINATOR CONF_ENTITY_NAME CONF_CURRENCY : string.
Variable DEFAULT_CURRENCY : string.

Lemma create_entities_outcome descriptions config_entry entities :
  (exists all,
     create_entities DOMAIN CONF_ENTITY_NAME descriptions config_entry entities = Ok all /\
     length all = (length entities + length descriptions)%nat) \/
  create_entities DOMAIN CONF_ENTITY_NAME descriptions config_entry entities
    = Raise (KeyError CONF_ENTITY_NAME).
Proof.
  destruct (options config_entry !! CONF_ENTITY_NAME) as [nm|] eqn:Hnm.
  - left. eexists. split; [by apply create_entities_named |].
    by rewrite length_app, length_fmap.
  - destruct descriptions as [|d ds]; simpl.
    + left. exists entities. split; [reflexivity | lia].
    + right. unfold dict_getitem. by rewrite Hnm.
Qed.

(** X12: the set-up is all or nothing.  Either it returns normally and the
    host has received one more call, with [update_before_add] true and
    eight sensors; or it raises a [KeyError] for [DOMAIN], the entry id,
    [CONF_COORDINATOR] or [CONF_ENTITY_NAME], and the host has received
    nothing: no partial list of sensors is ever handed over. *)
Theorem setup_all_or_nothing hass_data config_entry calls :
  (exists entities,
     async_setup_entry DOMAIN CONF_COORDINATOR CONF_ENTITY_NAME CONF_CURRENCY
       DEFAULT_CURRENCY hass_data config_entry calls
     = (Ok tt, (calls ++ [ {| new_entities := entities; update_before_add := true |} ])%list) /\
     length entities = 8%nat) \/
  (exists k,
     async_setup_entry DOMAIN CONF_COORDINATOR CONF_ENTITY_NAME CONF_CURRENCY
       DEFAULT_CURRENCY hass_data config_entry calls
     = (Raise (KeyError k), calls) /\
     k ∈ [DOMAIN; entry_id config_entry; CONF_COORDINATOR; CONF_ENTITY_NAME]).
Proof.
  unfold async_setup_entry.
  set (ds := sensor_descriptions _).
  assert (Hlen : length ds = 8%nat) by reflexivity. clearbody ds.
  destruct (create_entities_outcome ds config_entry []) as [(all & Hall & Hn) | Hall].
  - unfold dict_getitem.
    destruct (hass_data !! DOMAIN) as [by_domain|]; simpl;
      [| right; eexists; split; [reflexivity | repeat (first [by left | right])]].
    destruct (by_domain !! entry_id config_entry) as [by_entry|]; simpl;
      [| right; eexists; split; [reflexivity | repeat (first [by left | right])]].
    destruct (by_entry !! CONF_COORDINATOR) as [coordinator|]; simpl;
      [| right; eexists; split; [reflexivity | repeat (first [by left | right])]].
    rewrite Hall. left. exists all. split; [reflexivity |]. simpl in Hn. lia.
  - unfold dict_getitem.
    destruct (hass_data !! DOMAIN) as [by_domain|]; simpl;
      [| right; eexists; split; [reflexivity | repeat (first [by left | right])]].
    destruct (by_domain !! entry_id config_entry) as [by_entry|]; simpl;
      [| right; eexists; split; [reflexivity | repeat (first [by left | right])]].
    destruct (by_entry !! CONF_COORDINATOR) as [coordinator|]; simpl;
      [| right; eexists; split; [reflexivity | repeat (first [by left | right])]].
    rewrite Hall. right. eexists. split; [reflexivity | repeat (first [by left | right])].
Qed.

End SetupOutcome.

(** ** Outcome of an update *)

(** A [try] block that completed has stored the converted result of the
    extraction. *)
Lemma attempt_completed c w :
  raises (attempt c w).1 = false ->
  exists v,
    extraction c (w_self w) = Ok v /\
    _attr_native_value (w_self (attempt c w).2) = convert_timestamp v.
Proof.
  destruct w as [self hass lg]. unfold extraction. unfold_stmt. simpl. unfold rbind.
  destruct (processed_data c) as [snapshot|e]; simpl; [| discriminate].
  destruct (value_fn (entity_description self) snapshot) as [v|e]; simpl; [| discriminate].
  intros _. exists v. split; [reflexivity |].
  destruct (String.eqb (key (description self)) "avg_price"
            && negb (is_none (convert_timestamp v))); simpl; [| reflexivity].
  destruct (getitem snapshot "prices_today"); simpl; [| reflexivity].
  destruct (getitem snapshot "prices_tomorrow"); simpl; [| reflexivity].
  destruct (getitem snapshot "prices"); reflexivity.
Qed.

(** X3: after an update with a snapshot the entity is available exactly
    when the [try] block completed, whatever its availability was before (a
    good update after a failed one makes it available again); and then the
    current value is the result of the extraction, a pandas timestamp
    having been converted. *)
Theorem update_outcome c t w :
  is_Some (data c) ->
  available (w_self (after_update c t w)) = negb (raises (attempt c w).1) /\
  (raises (attempt c w).1 = false ->
   exists v,
     extraction c (w_self w) = Ok v /\
     _attr_native_value (w_self (after_update c t w)) = convert_timestamp v).
Proof.
  intros [raw Hdata].
  destruct (after_update_with_data c t w raw Hdata) as (Hv & _ & Hf).
  split.
  - unfold available. rewrite Hf. apply try_except_flag.
  - intros Hok. destruct (attempt_completed c w Hok) as (v & He & Hval).
    exists v. split; [exact He |].
    rewrite Hv, try_except_completed; [exact Hval |].
    destruct ((attempt c w).1) as [[]|e]; [reflexivity | discriminate Hok].
Qed.

(** After a failed update, a good one: unavailable, then available with the
    new value. *)
Lemma update_outcome_witness :
  available (w_self (after_update (coordinator_with zero_max_snapshot) sample_now
                       (new_world percentage_description))) = false /\
  available
    (w_self (after_update (coordinator_with full_snapshot) sample_now
               (after_update (coordinator_with zero_max_snapshot) sample_now
                  (new_world percentage_description)))) = true.
Proof.
  split.
  - destruct (update_outcome (coordinator_with zero_max_snapshot) sample_now
                (new_world percentage_description)) as [Hav _].
    + eexists; reflexivity.
    + rewrite Hav. vm_compute. reflexivity.
  - destruct (update_outcome (coordinator_with full_snapshot) sample_now
                (after_update (coordinator_with zero_max_snapshot) sample_now
                   (new_world percentage_description))) as [Hav _].
    + eexists; reflexivity.
    + rewrite Hav. vm_compute. reflexivity.
Defined.

(** The value after the guarded block is the old one or a converted one. *)
Lemma try_except_value c w :
  _attr_native_value (w_self (try_except (attempt c) on_error w).2)
    = _attr_native_value (w_self w) \/
  exists v,
    _attr_native_value (w_self (try_except (attempt c) on_error w).2)
      = convert_timestamp v.
Proof.
  destruct (raises (attempt c w).1) eqn:Hr.
  - destruct (try_except_failed c w Hr) as (_ & _ & Hv).
    destruct (extraction c (w_self w)) as [v|e]; [right; by exists v | by left].
  - destruct (attempt_completed c w Hr) as (v & _ & Hv).
    right. exists v. rewrite try_except_completed; [exact Hv |].
    destruct ((attempt c w).1) as [[]|e]; [reflexivity | discriminate Hr].
Qed.

Lemma convert_timestamp_not_timestamp v : is_timestamp (convert_timestamp v) = false.
Proof. by destruct v. Qed.

(** Without a snapshot the stored value and the flag are not touched. *)
Lemma value_kept_without_snapshot c t w :
  data c = None ->
  _attr_native_value (w_self (after_update c t w)) = _attr_native_value (w_self w) /\
  last_update_success (w_self (after_update c t w)) = last_update_success (w_self w) /\
  w_log (after_update c t w) = w_log w.
Proof.
  intros Hdata. destruct w as [self hass lg]. unfold_stmt. simpl.
  rewrite Hdata. simpl. destruct (_unsub_update self); simpl; repeat split; reflexivity.
Qed.

Lemma after_update_not_timestamp c t w :
  is_timestamp (_attr_native_value (w_self w)) = false ->
  is_timestamp (_attr_native_value (w_self (after_update c t w))) = false.
Proof.
  intros Hw. destruct (data c) as [raw|] eqn:Hdata.
  - destruct (after_update_with_data c t w raw Hdata) as (Hv & _ & _). rewrite Hv.
    destruct (try_except_value c w) as [-> | [v ->]];
      [exact Hw | apply convert_timestamp_not_timestamp].
  - destruct (value_kept_without_snapshot c t w Hdata) as (-> & _).
    exact Hw.
Qed.

(** X4: once the current value is not a pandas timestamp it never becomes
    one: through any sequence of updates and firings the value the host
    reads is a plain Python value, timestamps having been converted to
    [datetime]. *)
Theorem value_never_pandas_timestamp evs w :
  is_timestamp (_attr_native_value (w_self w)) = false ->
  is_timestamp (_attr_native_value (w_self (run evs w))) = false.
Proof.
  revert w. induction evs as [|ev evs IH]; intros w Hw; simpl; [exact Hw |].
  apply IH. destruct ev as [c t | h]; simpl; [| exact Hw].
  by apply after_update_not_timestamp.
Qed.

Lemma value_never_pandas_timestamp_witness :
  getitem full_snapshot "time_max" = Ok (VTimestamp (mk_datetime 738000 18 0 0 0) 0) /\
  is_timestamp
    (_attr_native_value
       (w_self (run [EvUpdate (coordinator_with full_snapshot) sample_now]
                    (new_world (mk_description "highest_price_time_today"
                                  "Time of highest price today" None (Some TIMESTAMP)
                                  None None (fun data => getitem data "time_max"))))))
  = false.
Proof.
  split; [vm_compute; reflexivity |].
  apply (value_never_pandas_timestamp
           [EvUpdate (coordinator_with full_snapshot) sample_now]).
  reflexivity.
Defined.

(** ** What an update never changes *)

Lemma after_update_identity c t w :
  description (w_self (after_update c t w)) = description (w_self w) /\
  entity_description (w_self (after_update c t w)) = entity_description (w_self w) /\
  entity_id (w_self (after_update c t w)) = entity_id (w_self w) /\
  _attr_unique_id (w_self (after_update c t w)) = _attr_unique_id (w_self w) /\
  _attr_name (w_self (after_update c t w)) = _attr_name (w_self w).
Proof.
  destruct w as [self hass lg]. unfold_stmt. simpl.
  split_attempt; repeat split; reflexivity.
Qed.

(** X5: the metric an entity is bound to and its entity id, unique id and
    name are fixed at construction: no sequence of updates and firings
    changes them. *)
Theorem identity_is_stable evs w :
  description (w_self (run evs w)) = description (w_self w) /\
  entity_description (w_self (run evs w)) = entity_description (w_self w) /\
  entity_id (w_self (run evs w)) = entity_id (w_self w) /\
  _attr_unique_id (w_self (run evs w)) = _attr_unique_id (w_self w) /\
  _attr_name (w_self (run evs w)) = _attr_name (w_self w).
Proof.
  revert w. induction evs as [|ev evs IH]; intros w; simpl; [by repeat split |].
  destruct (IH (step w ev)) as (-> & -> & -> & -> & ->).
  destruct ev as [c t | h]; simpl; [apply after_update_identity | by repeat split].
Qed.

(** ** Diagnostics *)

(** X6: an update with a snapshot writes exactly one log record: a debug
    record with the stored value when the [try] block completed, a warning
    with the exception when it raised; an update without a snapshot writes
    none. *)
Theorem one_log_record_per_attempt c t w :
  match data c with
  | None => w_log (after_update c t w) = w_log w
  | Some _ =>
      match (attempt c w).1 with
      | Ok _ =>
          w_log (after_update c t w) =
            (w_log w ++ [LogDebug (entity_id (w_self w))
                           (_attr_native_value (w_self (after_update c t w)))])%list
      | Raise e =>
          w_log (after_update c t w) =
            (w_log w ++ [LogWarning (entity_id (w_self w)) e])%list
      end
  end.
Proof.
  destruct w as [self hass lg]. unfold_stmt. simpl.
  destruct (data c) as [raw|]; simpl.
  - destruct (processed_data c) as [snapshot|e]; simpl;
      [| destruct (_unsub_update self); reflexivity].
    destruct (value_fn (entity_description self) snapshot) as [v|e]; simpl;
      [| destruct (_unsub_update self); reflexivity].
    destruct (String.eqb (key (description self)) "avg_price"
              && negb (is_none (convert_timestamp v))); simpl;
      [| destruct (_unsub_update self); reflexivity].
    destruct (getitem snapshot "prices_today"); simpl;
      [| destruct (_unsub_update self); reflexivity].
    destruct (getitem snapshot "prices_tomorrow"); simpl;
      [| destruct (_unsub_update self); reflexivity].
    destruct (getitem snapshot "prices"); simpl;
      destruct (_unsub_update self); reflexivity.
  - destruct (_unsub_update self); reflexivity.
Qed.

(** ** Repeated updates *)

(** Reduce, using the equations at hand for the expressions that show up. *)
Ltac rewrite_known :=
  simpl;
  repeat (match goal with
          | H : ?x = _ |- context [?x] => rewrite H
          end; simpl).

(** X7: updating twice against the same coordinator state gives what
    updating once gives: the second update changes neither the value nor the
    extra attributes nor the availability (only the wake-up is replaced). *)
Theorem update_is_idempotent c t1 t2 w :
  _attr_native_value (w_self (after_update c t2 (after_update c t1 w)))
    = _attr_native_value (w_self (after_update c t1 w)) /\
  _attr_extra_state_attributes (w_self (after_update c t2 (after_update c t1 w)))
    = _attr_extra_state_attributes (w_self (after_update c t1 w)) /\
  available (w_self (after_update c t2 (after_update c t1 w)))
    = available (w_self (after_update c t1 w)).
Proof.
  destruct w as [self hass lg]. unfold available. unfold_stmt. simpl.
  destruct (_unsub_update self) as [h|] eqn:Hu;
    (destruct (data c) as [raw|] eqn:Hd; rewrite_known; [| by repeat split];
     destruct (processed_data c) as [snapshot|e] eqn:Hp; rewrite_known;
       [| by repeat split];
     destruct (value_fn (entity_description self) snapshot) as [v|e] eqn:Hv;
       rewrite_known; [| by repeat split];
     destruct (String.eqb (key (description self)) "avg_price"
               && negb (is_none (convert_timestamp v))) eqn:Hk; rewrite_known;
       [| by repeat split];
     destruct (getitem snapshot "prices_today") eqn:H1; rewrite_known;
       [| by repeat split];
     destruct (getitem snapshot "prices_tomorrow") eqn:H2; rewrite_known;
       [| by repeat split];
     destruct (getitem snapshot "prices") eqn:H3; rewrite_known;
       by repeat split).
Qed.

(** ** The time of the next wake-up *)

(** X8: for every well-formed clock reading before the last hour of
    9999-12-31 the expression [utcnow().replace(minute=0, second=0) +
    timedelta(hours=1)] returns, without the [OverflowError] of the range
    check, a well-formed time with minute and second zero that lies after
    the clock reading and at most one hour after it: exactly one hour minus
    the minutes and seconds already gone. *)
Theorem next_update_within_the_hour t :
  valid_datetime t ->
  ordinal t < MAXORDINAL \/ hour t < 23 ->
  next_update_time_checked t = Ok (next_update_time t) /\
  valid_datetime (next_update_time t) /\
  minute (next_update_time t) = 0 /\
  second (next_update_time t) = 0 /\
  to_microseconds (next_update_time t)
    = to_microseconds t + (3600 - (minute t * 60 + second t)) * 1000000 /\
  to_microseconds t < to_microseconds (next_update_time t)
    <= to_microseconds t + 3600000000.
Proof.
  intros Hvalid Hrange. pose proof Hvalid as (Ho & Hh & Hm & Hs & Hu).
  unfold next_update_time_checked, datetime_add_checked.
  fold (next_update_time t).
  rewrite (next_update_time_microsecond t Hvalid).
  unfold valid_datetime, to_microseconds, datetime_add, truncate_to_hour,
    timedelta_hours, MAXORDINAL in *. simpl.
  change (1 * 3600 / 86400) with 0. change ((1 * 3600) mod 86400) with 3600.
  change (0 / 1000000) with 0. rewrite !Z.add_0_r.
  assert (Hcase : hour t < 23 \/ hour t = 23) by lia.
  destruct Hcase as [Hlt | H23].
  - rewrite (Z.div_small (hour t * 3600 + 3600) 86400) by lia.
    rewrite (Z.mod_small (hour t * 3600 + 3600) 86400) by lia.
    replace (hour t * 3600 + 3600) with ((hour t + 1) * 3600) by lia.
    rewrite Z.div_mul by lia. rewrite !Z.add_0_r.
    replace (0 <? ordinal t) with true by (symmetry; apply Z.ltb_lt; lia).
    replace (ordinal t <=? 3652059) with true by (symmetry; apply Z.leb_le; lia).
    simpl. repeat split; lia.
  - rewrite H23 in *.
    change ((23 * 3600 + 3600) / 86400) with 1.
    change (((23 * 3600 + 3600) mod 86400) / 3600) with 0.
    replace (0 <? ordinal t + 1) with true by (symmetry; apply Z.ltb_lt; lia).
    replace (ordinal t + 1 <=? 3652059) with true by (symmetry; apply Z.leb_le; lia).
    simpl. repeat split; lia.
Qed.

(** At 23:59:59.5 the wake-up is at midnight of the next day. *)
Lemma next_update_within_the_hour_witness :
  valid_datetime (mk_datetime 738000 23 59 59 500000) /\
  next_update_time_checked (mk_datetime 738000 23 59 59 500000)
    = Ok (mk_datetime 738001 0 0 0 500000) /\
  to_microseconds (mk_datetime 738000 23 59 59 500000)
    < to_microseconds (next_update_time (mk_datetime 738000 23 59 59 500000)).
Proof.
  assert (Hv : valid_datetime (mk_datetime 738000 23 59 59 500000))
    by (unfold valid_datetime, MAXORDINAL; simpl; lia).
  assert (Hr : ordinal (mk_datetime 738000 23 59 59 500000) < MAXORDINAL
               \/ hour (mk_datetime 738000 23 59 59 500000) < 23)
    by (left; unfold MAXORDINAL; simpl; lia).
  destruct (next_update_within_the_hour _ Hv Hr) as (Hok & _ & _ & _ & _ & Hlt & _).
  split; [exact Hv |]. split; [exact Hok | exact Hlt].
Defined.

(** In the last hour of 9999-12-31 the expression raises: the sum would
    pass [datetime.max]. *)
Lemma next_update_overflows t :
  valid_datetime t ->
  ordinal t = MAXORDINAL -> hour t = 23 ->
  next_update_time_checked t = Raise OverflowError.
Proof.
  intros (_ & _ & Hm & Hs & Hu) Ho Hh.
  unfold next_update_time_checked, datetime_add_checked, datetime_add,
    replace_minute_second, timedelta_hours, MAXORDINAL in *. simpl.
  rewrite Ho, Hh.
  change (1 * 3600 / 86400) with 0. rewrite !Z.add_0_r.
  rewrite (Z.div_small (microsecond t) 1000000) by lia. reflexivity.
Qed.

(** ** The percentage is a float *)

Lemma py_truediv_float c m q : py_truediv c m = Ok q -> exists f, q = VFloat f.
Proof.
  unfold py_truediv.
  destruct (as_number c) as [[a|a]|], (as_number m) as [[b|b]|]; simpl;
    try discriminate.
  - destruct (long_true_divide a b); simpl; [intros [= <-]; eauto | discriminate].
  - destruct (PyLong_AsDouble a); simpl; [| discriminate].
    destruct (float_div _ b); simpl; [intros [= <-]; eauto | discriminate].
  - destruct (PyLong_AsDouble b); simpl; [| discriminate].
    destruct (float_div a _); simpl; [intros [= <-]; eauto | discriminate].
  - destruct (float_div a b); simpl; [intros [= <-]; eauto | discriminate].
Qed.

(** X9: whenever the percentage extraction returns, it returns a float:
    never [None], never an [int], whatever the types of the two prices. *)
Theorem percentage_is_float data v :
  percentage_of_max_fn data = Ok v -> is_float v = true.
Proof.
  unfold percentage_of_max_fn.
  destruct (getitem data "current_price") as [c|]; simpl; [| discriminate].
  destruct (getitem data "max_price") as [m|]; simpl; [| discriminate].
  destruct (py_truediv c m) as [q|] eqn:Hq; simpl; [| discriminate].
  destruct (py_truediv_float c m q Hq) as [f ->].
  unfold py_mul. simpl.
  destruct (float_round _ 1); simpl; [intros [= <-]; reflexivity | discriminate].
Qed.

Lemma percentage_is_float_witness :
  percentage_of_max_fn {[ "current_price" := VBool true; "max_price" := VInt 4 ]}
    = Ok (VFloat (float_of_Z 25)) /\
  is_float (VFloat (float_of_Z 25)) = true.
Proof.
  assert (H : percentage_of_max_fn
                {[ "current_price" := VBool true; "max_price" := VInt 4 ]}
              = Ok (VFloat (float_of_Z 25))) by (vm_compute; reflexivity).
  split; [exact H | exact (percentage_is_float _ _ H)].
Defined.

(** ** Other listeners *)

Lemma filter_filter_implied {A} (P Q : A -> Prop)
    `{!forall x, Decision (P x)} `{!forall x, Decision (Q x)} (l : list A) :
  (forall x, x ∈ l -> P x -> Q x) ->
  filter P (filter Q l) = filter P l.
Proof.
  induction l as [|x l IH]; intros Himp; [reflexivity |].
  assert (IH' : filter P (filter Q l) = filter P l)
    by (apply IH; intros y Hy; apply Himp; by right).
  rewrite (filter_cons Q). destruct (decide (Q x)) as [Hq | Hq].
  - rewrite !filter_cons. destruct (decide (P x)); by rewrite IH'.
  - rewrite IH'. rewrite filter_cons_False; [reflexivity |].
    intros Hp. apply Hq. apply Himp; [left | exact Hp].
Qed.

Lemma fresh_owns_handle w : fresh w -> owns_handle w.
Proof. intros (Hu & _) h tm Hh. congruence. Qed.

Lemma step_owns_handle w ev :
  well_scheduled w -> owns_handle w -> owns_handle (step w ev).
Proof.
  intros (_ & Hlt & _) Hown. destruct ev as [c t | h0]; simpl.
  - intros h tm Hh Hin Heq.
    rewrite after_update_unsub in Hh. injection Hh as <-.
    rewrite after_update_job. rewrite after_update_hass in Hin.
    unfold async_track_point_in_utc_time in Hin. simpl in Hin.
    apply elem_of_app in Hin as [Hin | Hin].
    + exfalso. assert (Hold : tm ∈ timers (w_hass w)).
      { destruct (_unsub_update (w_self w)); [| exact Hin].
        simpl in Hin. by apply list_elem_of_filter in Hin as [_ Hin]. }
      specialize (Hlt tm Hold). lia.
    + apply list_elem_of_singleton in Hin as ->. reflexivity.
  - intros h tm Hh Hin Heq. simpl in *.
    apply list_elem_of_filter in Hin as [_ Hin]. by apply (Hown h tm).
Qed.

Lemma run_owns_handle evs w :
  well_scheduled w -> owns_handle w ->
  well_scheduled (run evs w) /\ owns_handle (run evs w).
Proof.
  revert w. induction evs as [|ev evs IH]; intros w Hw Ho; simpl; [done |].
  apply IH; [by apply step_well_scheduled | by apply step_owns_handle].
Qed.

(** X10: an update touches no listener of another job: starting from a
    freshly constructed entity, whatever updates and firings came before,
    the listeners that other jobs have pending are the same after an update
    as before it. *)
Theorem update_keeps_other_listeners w evs c t :
  fresh w ->
  others_pending (after_update c t (run evs w)) = others_pending (run evs w).
Proof.
  intros Hfresh.
  destruct (run_owns_handle evs w (fresh_well_scheduled w Hfresh)
              (fresh_owns_handle w Hfresh)) as [_ Hown].
  set (w1 := run evs w) in *.
  unfold others_pending. rewrite after_update_job, after_update_hass.
  unfold async_track_point_in_utc_time. simpl.
  rewrite filter_app, filter_cons_False, filter_nil, app_nil_r by (simpl; tauto).
  destruct (_unsub_update (w_self w1)) as [h|] eqn:Hu; [| reflexivity].
  simpl. apply filter_filter_implied.
  intros tm Hin Hother Heq. apply Hother. by apply (Hown h tm).
Qed.

Lemma update_keeps_other_listeners_witness :
  let other := {| t_handle := 0%nat; t_job := {| job_target := "sensor.other" |};
                  t_when := sample_now |} in
  let w := {| w_self := EntsoeSensor_init "entsoe" current_price_description (Some "home");
              w_hass := {| timers := [other]; next_handle := 1 |};
              w_log := [] |} in
  fresh w /\
  others_pending
    (after_update coordinator_without_data sample_now
       (run [EvUpdate (coordinator_with full_snapshot) sample_now] w)) = [other].
Proof.
  intros other w.
  assert (Hfresh : fresh w).
  { repeat split.
    - apply NoDup_singleton.
    - intros tm Hin. apply list_elem_of_singleton in Hin as ->. simpl. lia. }
  split; [exact Hfresh |].
  rewrite (update_keeps_other_listeners w
             [EvUpdate (coordinator_with full_snapshot) sample_now]
             coordinator_without_data sample_now Hfresh).
  vm_compute. reflexivity.
Defined.

(** ** Complete snapshots *)

Lemma available_after_attempt c t w :
  is_Some (data c) ->
  raises (attempt c w).1 = false ->
  last_update_success (w_self (after_update c t w)) = true.
Proof.
  intros [raw Hdata] Hok.
  destruct (after_update_with_data c t w raw Hdata) as (_ & _ & ->).
  rewrite try_except_flag, Hok. reflexivity.
Qed.

Ltac in_list := unfold snapshot_fields; repeat (first [by left | right]).

(** X11: when the snapshot holds all ten fields, whatever their values, the
    update of every metric of the catalog except the percentage succeeds:
    the entity is available afterwards. *)
Theorem complete_snapshot_makes_available currency c t w snapshot :
  description (w_self w) ∈ sensor_descriptions currency ->
  entity_description (w_self w) = description (w_self w) ->
  key (description (w_self w)) <> "percentage_of_max" ->
  is_Some (data c) ->
  processed_data c = Ok snapshot ->
  complete snapshot ->
  available (w_self (after_update c t w)) = true.
Proof.
  intros Hd He Hk Hdata Hproc Hc.
  apply available_after_attempt; [exact Hdata |].
  assert (Hget : forall k, k ∈ snapshot_fields -> exists v, getitem snapshot k = Ok v).
  { intros k Hin. destruct (Hc k Hin) as [v Hv]. exists v. unfold getitem. by rewrite Hv. }
  destruct (Hget "prices_today") as [p1 H1]; [in_list |].
  destruct (Hget "prices_tomorrow") as [p2 H2]; [in_list |].
  destruct (Hget "prices") as [p3 H3]; [in_list |].
  destruct w as [self hass lg]. simpl in *.
  unfold_stmt. simpl. rewrite Hproc. simpl. rewrite He.
  unfold sensor_descriptions in Hd.
  repeat (apply elem_of_cons in Hd as [Hd | Hd]);
    try (by apply elem_of_nil in Hd);
    rewrite Hd in *; simpl in *; try congruence.
  1: destruct (Hget "current_price") as [v ->]; [in_list |].
  2: destruct (Hget "next_hour_price") as [v ->]; [in_list |].
  3: destruct (Hget "min_price") as [v ->]; [in_list |].
  4: destruct (Hget "max_price") as [v ->]; [in_list |].
  5: destruct (Hget "avg_price") as [v ->]; [in_list |].
  6: destruct (Hget "time_max") as [v ->]; [in_list |].
  7: destruct (Hget "time_min") as [v ->]; [in_list |].
  all: simpl; try reflexivity.
  rewrite H1, H2, H3. simpl.
  destruct (negb (is_none (convert_timestamp v))); reflexivity.
Qed.

Lemma complete_snapshot_makes_available_witness :
  complete full_snapshot /\
  available (w_self (after_update (coordinator_with full_snapshot) sample_now
                       (new_world avg_price_description))) = true.
Proof.
  assert (Hc : complete full_snapshot).
  { intros k Hk. unfold snapshot_fields in Hk.
    repeat (apply elem_of_cons in Hk as [-> | Hk]);
      try (eexists; vm_compute; reflexivity).
    by apply elem_of_nil in Hk. }
  split; [exact Hc |].
  apply (complete_snapshot_makes_available "EUR" (coordinator_with full_snapshot)
           sample_now (new_world avg_price_description) full_snapshot).
  - unfold sensor_descriptions, new_world. simpl. do 4 right. left.
  - reflexivity.
  - discriminate.
  - eexists; reflexivity.
  - reflexivity.
  - exact Hc.
Defined.
